(** * Glitch Cube conversation agent: the turn relay of
      custom_components/glitchcube_conversation/conversation.py

    The model has three layers:
    - [Py]: the fragment of Python the agent relies on (JSON-decoded values,
      truthiness, [dict.get], [str], [str.strip], slicing, exceptions);
    - [Eff]: a writer-plus-exception monad recording the side effects of a
      turn (HTTP post, service calls, sleeps) in order;
    - [Agent]: the methods of [GlitchCubeConversationEntity], one definition
      per method, under the names of the source.
    [Samples] holds concrete turns and [Spec] the notions the specification
    is worded in; [ConfigFlow] models the setup flow of config_flow.py and
    [Notions] the vocabulary for whole turns and for the setup; the modules
    after them hold the theorems, one module per component. *)

From Stdlib Require Import ZArith String Ascii List Bool Lia DecimalString.
Import ListNotations.
Local Open Scope string_scope.
Local Open Scope Z_scope.
Set Warnings "-register-all".

(* ===================================================================== *)
(** ** Python values and builtins *)
(* ===================================================================== *)

Module Py.

(** Values that [response.json()] can produce.  A [str] is a sequence of
    code points; here one [ascii] stands for one code point below 256.
    JSON numbers are the integers (a non-integral delay is outside the
    model).  A [dict] keeps its items in insertion order and its keys are
    distinct, so the first binding of a key is its only one. *)
Inductive pyval : Type :=
| PNone
| PBool (b : bool)
| PInt (n : Z)
| PStr (s : string)
| PList (items : list pyval)
| PDict (items : list (string * pyval)).

(** Exceptions, by the classes the [except] clauses of [async_process]
    tell apart.  Every constructor is a subclass of [Exception]. *)
Inductive exn : Type :=
| TimeoutError                       (* asyncio.TimeoutError *)
| ClientError                        (* aiohttp.ClientError and subclasses *)
| ServerTimeoutError                 (* aiohttp: both of the above *)
| ConversationError (msg : string)   (* the module's own class *)
| AttributeError
| TypeError
| OverflowError
| ValueError                         (* json.JSONDecodeError is one *)
| OtherException (name : string).

Definition is_TimeoutError (e : exn) : bool :=
  match e with TimeoutError | ServerTimeoutError => true | _ => false end.

Definition is_ClientError (e : exn) : bool :=
  match e with ClientError | ServerTimeoutError => true | _ => false end.

Definition is_ConversationError (e : exn) : bool :=
  match e with ConversationError _ => true | _ => false end.

(** [bool(v)] *)
Definition truthy (v : pyval) : bool :=
  match v with
  | PNone => false
  | PBool b => b
  | PInt n => negb (n =? 0)
  | PStr s => negb (s =? "")%string
  | PList l => match l with [] => false | _ => true end
  | PDict l => match l with [] => false | _ => true end
  end.

(** [a or b]: the first operand when it is truthy, else the second. *)
Definition py_or (a b : pyval) : pyval := if truthy a then a else b.

(** [v == "literal"] *)
Definition eq_str (v : pyval) (lit : string) : bool :=
  match v with PStr s => (s =? lit)%string | _ => false end.

Definition isinstance_dict (v : pyval) : bool :=
  match v with PDict _ => true | _ => false end.

Fixpoint lookup (k : string) (items : list (string * pyval)) : option pyval :=
  match items with
  | [] => None
  | (k', v) :: rest => if (k' =? k)%string then Some v else lookup k rest
  end.

(** [d.get(k, default)] on a dict. *)
Definition dict_get (items : list (string * pyval)) (k : string) (default : pyval)
  : pyval :=
  match lookup k items with Some v => v | None => default end.

(** [v.get(k, default)] on any value: only a dict has the method. *)
Definition get (v : pyval) (k : string) (default : pyval) : exn + pyval :=
  match v with
  | PDict items => inr (dict_get items k default)
  | _ => inl AttributeError
  end.

(** *** Strings *)

(** [str.isspace] on one code point below 256. *)
Definition is_space (c : ascii) : bool :=
  let n := N_of_ascii c in
  ((9 <=? n) && (n <=? 13) || (28 <=? n) && (n <=? 32)
   || (n =? 133) || (n =? 160))%N.

Fixpoint lstrip (s : string) : string :=
  match s with
  | EmptyString => EmptyString
  | String c s' => if is_space c then lstrip s' else s
  end.

Fixpoint rstrip (s : string) : string :=
  match s with
  | EmptyString => EmptyString
  | String c s' =>
      match rstrip s' with
      | EmptyString => if is_space c then EmptyString else String c EmptyString
      | r => String c r
      end
  end.

(** [s.strip()] *)
Definition strip (s : string) : string := rstrip (lstrip s).

(** [s[:n]] for a non-negative [n]. *)
Fixpoint take (n : nat) (s : string) : string :=
  match n, s with
  | S n', String c s' => String c (take n' s')
  | _, _ => EmptyString
  end.

Definition str_of_Z (n : Z) : string := NilEmpty.string_of_int (Z.to_int n).

Definition squote : ascii := ascii_of_nat 39.
Definition dquote : ascii := ascii_of_nat 34.
Definition backslash : ascii := ascii_of_nat 92.

Fixpoint contains (c : ascii) (s : string) : bool :=
  match s with
  | EmptyString => false
  | String c' s' => (c' =? c)%char || contains c s'
  end.

Definition hex_digit (n : N) : ascii :=
  if (n <? 10)%N then ascii_of_N (48 + n) else ascii_of_N (87 + n).

(** One character of [repr(s)] inside the quotes [q]. *)
Definition repr_char (q c : ascii) : string :=
  let n := N_of_ascii c in
  if (c =? q)%char || (c =? backslash)%char then String backslash (String c "")
  else if (n =? 9)%N then String backslash "t"
  else if (n =? 10)%N then String backslash "n"
  else if (n =? 13)%N then String backslash "r"
  else if (n <? 32)%N || (n =? 127)%N
          || (128 <=? n)%N && (n <=? 160)%N || (n =? 173)%N
       then String backslash
              (String "x" (String (hex_digit (n / 16)) (String (hex_digit (n mod 16)) "")))
  else String c "".

Fixpoint repr_chars (q : ascii) (s : string) : string :=
  match s with
  | EmptyString => EmptyString
  | String c s' => repr_char q c ++ repr_chars q s'
  end.

(** [repr(s)] of a [str]: single quotes unless the text has a single
    quote and no double quote. *)
Definition repr_str (s : string) : string :=
  let q := if contains squote s && negb (contains dquote s) then dquote else squote in
  String q (repr_chars q s ++ String q "").

(** [repr(v)] *)
Fixpoint repr (v : pyval) : string :=
  match v with
  | PNone => "None"
  | PBool true => "True"
  | PBool false => "False"
  | PInt n => str_of_Z n
  | PStr s => repr_str s
  | PList l =>
      "[" ++ (fix elems (l : list pyval) : string :=
                match l with
                | [] => ""
                | x :: r =>
                    match r with
                    | [] => repr x
                    | _ => repr x ++ ", " ++ elems r
                    end
                end) l ++ "]"
  | PDict l =>
      "{" ++ (fix elems (l : list (string * pyval)) : string :=
                match l with
                | [] => ""
                | (k, x) :: r =>
                    match r with
                    | [] => repr_str k ++ ": " ++ repr x
                    | _ => repr_str k ++ ": " ++ repr x ++ ", " ++ elems r
                    end
                end) l ++ "}"
  end.

(** [str(v)] *)
Definition str (v : pyval) : string :=
  match v with PStr s => s | _ => repr v end.

(** [v[:n]]: a [str] or a [list] is sliced; [None], a number or a [dict]
    raise (the [dict] a [KeyError] from Python 3.12 on, a [TypeError]
    before). *)
Definition slice_to (n : nat) (v : pyval) : exn + pyval :=
  match v with
  | PStr s => inr (PStr (take n s))
  | PList l => inr (PList (firstn n l))
  | _ => inl TypeError
  end.

End Py.

(* ===================================================================== *)
(** ** Effects of a turn *)
(* ===================================================================== *)

Module Eff.
Import Py.

(** What a turn does to the outside, in the order it happens.  A service
    call is recorded with whether [hass.services.async_call] returned
    ([true]) or raised ([false]). *)
Inductive event : Type :=
| EvPost (url : string) (payload : pyval)
| EvServiceCall (domain service : string) (data : pyval) (blocking : bool)
                (dispatched : bool)
| EvSleep (delay : pyval).

Definition trace := list event.

(** [hass.states.get(entity_id)]: raises, finds no entity, or returns a
    [State] whose [state] attribute is a [str]. *)
Inductive state_read : Type :=
| StateRaises (e : exn)
| StateMissing
| StateOf (state : string).

(** [session.post(...)] and, on a response, [response.status] and
    [await response.json()]. *)
Inductive http_outcome : Type :=
| PostRaises (e : exn)
| PostResponse (status : Z) (json : exn + pyval).

(** The host platform and the network as the agent sees them in one turn. *)
Record world : Type := {
  states_get : string -> state_read;
  services_async_call : string -> string -> option exn;
  session_post : string -> pyval -> http_outcome;
  utcnow_isoformat : string
}.

Class Monad (m : Type -> Type) : Type := {
  ret : forall {A}, A -> m A;
  bind : forall {A B}, m A -> (A -> m B) -> m B
}.

(** Pure code that can raise. *)
Definition R (A : Type) : Type := (exn + A)%type.

(** Code with effects that can raise: the events so far and the outcome. *)
Definition M (A : Type) : Type := (trace * (exn + A))%type.

#[export] Instance Monad_R : Monad R := {
  ret := fun A a => inr a;
  bind := fun A B m k => match m with inl e => inl e | inr a => k a end
}.

#[export] Instance Monad_M : Monad M := {
  ret := fun A a => ([], inr a);
  bind := fun A B m k =>
    match m with
    | (t, inl e) => (t, inl e)
    | (t, inr a) => let (t', r) := k a in ((t ++ t')%list, r)
    end
}.

Definition raise {A} (e : exn) : M A := ([], inl e).
Definition tell (ev : event) : M unit := ([ev], inr tt).
Definition lift {A} (r : R A) : M A := ([], r).

(** [try: body  except Exception as e: handler(e)] *)
Definition try_except {A} (body : M A) (handler : exn -> M A) : M A :=
  match body with
  | (t, inl e) => let (t', r) := handler e in ((t ++ t')%list, r)
  | (t, inr a) => (t, inr a)
  end.

(** Largest delay the event loop can add to its float clock: from
    [2^1024 - 2^970] on, the conversion of the [int] overflows. *)
Definition float_int_limit : Z := 2 ^ 1024 - 2 ^ 970.

(** [await asyncio.sleep(delay)]: starts with [delay <= 0], which raises
    for anything but a number; a positive delay goes to [loop.call_later]. *)
Definition asyncio_sleep (delay : pyval) : M unit :=
  match delay with
  | PInt n => if n <? float_int_limit then tell (EvSleep delay) else raise OverflowError
  | PBool _ => tell (EvSleep delay)
  | _ => raise TypeError
  end.

(** [await hass.services.async_call(domain, service, data, blocking=b)] *)
Definition async_call (w : world) (domain service : string) (data : pyval)
    (blocking : bool) : M unit :=
  match services_async_call w domain service with
  | None => tell (EvServiceCall domain service data blocking true)
  | Some e =>
      bind (tell (EvServiceCall domain service data blocking false)) (fun _ => raise e)
  end.

End Eff.

Declare Scope monad_scope.
Delimit Scope monad_scope with monad.
Notation "x <- c ;; k" := (Eff.bind c (fun x => k))
  (at level 61, c at next level, right associativity) : monad_scope.
Notation "c ;; k" := (Eff.bind c (fun _ => k))
  (at level 61, right associativity) : monad_scope.

(* ===================================================================== *)
(** ** const.py *)
(* ===================================================================== *)

Module Const.
Definition DOMAIN : string := "glitchcube_conversation".
Definition DEFAULT_PORT : Z := 4567.
Definition DEFAULT_TIMEOUT : Z := 120.
Definition RESPONSE_KEY : string := "response".
End Const.

(* ===================================================================== *)
(** ** The host platform's data types, as far as the agent touches them *)
(* ===================================================================== *)

Module ConfigEntry.
Record t : Type := { entry_id : string; data : list (string * Py.pyval) }.
End ConfigEntry.

Module ConversationInput.
Record t : Type := {
  text : string;
  conversation_id : option string;
  device_id : option string;
  language : string
}.
End ConversationInput.

Module IntentResponse.
(** [speech] is what [async_set_speech] was given; it is stored as it is. *)
Record t : Type := { language : string; speech : Py.pyval }.
End IntentResponse.

Module ConversationResult.
Record t : Type := {
  conversation_id : option string;
  response : IntentResponse.t;
  continue_conversation : Py.pyval
}.
End ConversationResult.

(* ===================================================================== *)
(** ** conversation.py: GlitchCubeConversationEntity *)
(* ===================================================================== *)

Module Agent.
Import Py Eff Const.
Local Open Scope monad_scope.

Record GlitchCubeConversationEntity : Type := {
  _config_entry : ConfigEntry.t;
  _attr_name : string;
  _api_url : option string;
  _attr_unique_id : string;
  _timeout : Z
}.

Definition opt_str (o : option string) : pyval :=
  match o with Some s => PStr s | None => PNone end.

Definition conversation_path : string := "/api/v1/conversation".

Definition __init__ (config_entry : ConfigEntry.t) : GlitchCubeConversationEntity :=
  let host := dict_get (ConfigEntry.data config_entry) "host" (PStr "") in
  let port := dict_get (ConfigEntry.data config_entry) "port" (PInt DEFAULT_PORT) in
  let uid := DOMAIN ++ "_" ++ ConfigEntry.entry_id config_entry in
  if negb (truthy host) then
    {| _config_entry := config_entry;
       _attr_name := "Glitch Cube (Dynamic IP:" ++ str port ++ ")";
       _api_url := None;
       _attr_unique_id := uid;
       _timeout := DEFAULT_TIMEOUT |}
  else
    {| _config_entry := config_entry;
       _attr_name := "Glitch Cube (" ++ str host ++ ":" ++ str port ++ ")";
       _api_url := Some ("http://" ++ str host ++ ":" ++ str port ++ conversation_path);
       _attr_unique_id := uid;
       _timeout := DEFAULT_TIMEOUT |}.

(** [state not in ["unknown", "unavailable", ""]] *)
Definition not_in_unset_markers (state : string) : bool :=
  negb ((state =? "unknown") || (state =? "unavailable") || (state =? ""))%string.

Definition _get_current_api_url (self : GlitchCubeConversationEntity) (w : world)
  : string :=
  let port := dict_get (ConfigEntry.data (_config_entry self)) "port" (PInt DEFAULT_PORT) in
  let configured_or_fallback :=
    match _api_url self with
    | Some url => if negb (url =? "")%string then url
                  else "http://192.168.0.99:" ++ str port ++ conversation_path
    | None => "http://192.168.0.99:" ++ str port ++ conversation_path
    end in
  match states_get w "input_text.glitchcube_host" with
  | StateOf state =>
      if negb (state =? "")%string && not_in_unset_markers state then
        let dynamic_host := strip state in
        "http://" ++ dynamic_host ++ ":" ++ str port ++ conversation_path
      else configured_or_fallback
  | StateMissing => configured_or_fallback
  | StateRaises _ => configured_or_fallback
  end.

Definition make_result (user_input : ConversationInput.t) (speech cont : pyval)
  : ConversationResult.t :=
  {| ConversationResult.conversation_id := ConversationInput.conversation_id user_input;
     ConversationResult.response :=
       {| IntentResponse.language := ConversationInput.language user_input;
          IntentResponse.speech := speech |};
     ConversationResult.continue_conversation := cont |}.

Definition _create_error_response (user_input : ConversationInput.t)
    (error_message : string) : ConversationResult.t :=
  make_result user_input (PStr error_message) (PBool false).

(** [response_text.strip()]: only a [str] has the method. *)
Definition strip_method (v : pyval) : R string :=
  match v with PStr s => inr (strip s) | _ => inl AttributeError end.

Definition _extract_response_text (conversation_data : pyval) : R string :=
  raw_response <- get conversation_data RESPONSE_KEY (PStr "") ;;
  response_text <-
    (if isinstance_dict raw_response then
       sp <- get raw_response "speech" (PDict []) ;;
       pl <- get sp "plain" (PDict []) ;;
       nested <- get pl "speech" PNone ;;
       if truthy nested then ret nested else
       simple <- get raw_response "response" PNone ;;
       if truthy simple then ret simple else
       da <- get raw_response "data" (PDict []) ;;
       cu <- get da "custom_data" (PDict []) ;;
       claude <- get cu "claude_response" (PStr "") ;;
       ret (py_or (PStr (take 100 (str claude)))
                  (PStr "I had some trouble with that response."))
     else
       ret (if truthy raw_response then PStr (str raw_response)
            else PStr "I didn't understand that.")) ;;
  cleaned_text <- strip_method response_text ;;
  ret (if (cleaned_text =? "")%string
       then "Sorry, I'm having trouble speaking right now."
       else cleaned_text).

Definition _play_listening_resume_sound (w : world) : M unit :=
  try_except
    (async_call w "media_player" "play_media"
       (PDict [("entity_id", PStr "media_player.square_voice");
               ("media_content_id", PStr "/media/sounds/listening_resume.wav");
               ("media_content_type", PStr "audio/wav")])
       false)
    (fun _ => ret tt).

Definition _handle_immediate_speech_with_background_tools (w : world)
    (conversation_data : pyval) (user_input : ConversationInput.t)
  : M ConversationResult.t :=
  speech_text <- lift (get conversation_data "speech_text" (PStr "On it!")) ;;
  lift (slice_to 50 speech_text) ;;                  (* the argument of the log line *)
  try_except
    (async_call w "tts" "cloud_say"
       (PDict [("entity_id", PStr "media_player.square_voice");
               ("message", speech_text);
               ("language", PStr "en-US")])
       false)
    (fun _ => ret tt) ;;
  delay_seconds <- lift (get conversation_data "continue_delay" (PInt 3)) ;;
  asyncio_sleep delay_seconds ;;
  _play_listening_resume_sound w ;;
  ret (make_result user_input (PStr " ") (PBool true)).

Definition _handle_error_response (conversation_data : pyval)
    (user_input : ConversationInput.t) : M ConversationResult.t :=
  error_text <- lift (get conversation_data "speech_text" (PStr "I encountered an error.")) ;;
  lift (get conversation_data "error_details" (PStr "")) ;;
  ret (make_result user_input error_text (PBool false)).

Definition _handle_normal_response (w : world) (conversation_data : pyval)
    (user_input : ConversationInput.t) : M ConversationResult.t :=
  response_text <- lift (_extract_response_text conversation_data) ;;
  continue_conversation <-
    lift (get conversation_data "continue_conversation" (PBool false)) ;;
  (if truthy continue_conversation then
     delay_seconds <- lift (get conversation_data "continue_delay" (PInt 3)) ;;
     asyncio_sleep delay_seconds ;;
     _play_listening_resume_sound w
   else ret tt) ;;
  ret (make_result user_input (PStr response_text) continue_conversation).

(** Lines 194-209 of [async_process]: the branch on [response_type]. *)
Definition route_response (w : world) (conversation_data : pyval)
    (user_input : ConversationInput.t) : M ConversationResult.t :=
  response_type <- lift (get conversation_data "response_type" (PStr "normal")) ;;
  if eq_str response_type "immediate_speech_with_background_tools" then
    _handle_immediate_speech_with_background_tools w conversation_data user_input
  else if eq_str response_type "error" then
    _handle_error_response conversation_data user_input
  else
    _handle_normal_response w conversation_data user_input.

(** The JSON body of the post.  [ConversationInput] has no [user_id]
    attribute, so [getattr(user_input, "user_id", None)] is [None]. *)
Definition request_payload (self : GlitchCubeConversationEntity) (w : world)
    (user_input : ConversationInput.t) : pyval :=
  let cid := opt_str (ConversationInput.conversation_id user_input) in
  PDict [("message", PStr (ConversationInput.text user_input));
         ("context",
          PDict [("session_id", PStr ("voice_" ++ str cid));
                 ("conversation_id", cid);
                 ("device_id", opt_str (ConversationInput.device_id user_input));
                 ("language", PStr (ConversationInput.language user_input));
                 ("voice_interaction", PBool true);
                 ("timestamp", PStr (utcnow_isoformat w));
                 ("ha_context",
                  PDict [("agent_id", PStr (_attr_unique_id self));
                         ("user_id", PNone)])])].

(** Lines 187-192 of [async_process]: the envelope of a response that
    passed the status test. *)
Definition read_envelope (json : R pyval) : M pyval :=
  result_data <- lift json ;;
  success <- lift (get result_data "success" (PBool false)) ;;
  if negb (truthy success) then
    err <- lift (get result_data "error" (PStr "Unknown error")) ;;
    raise (ConversationError ("Conversation failed: " ++ str err))
  else
    lift (get result_data "data" (PDict [])).

(** Lines 144-192 of [async_process]: resolve the endpoint, post the
    turn, test the status, read the envelope. *)
Definition fetch_conversation_data (self : GlitchCubeConversationEntity) (w : world)
    (user_input : ConversationInput.t) : M pyval :=
  let api_url := _get_current_api_url self w in
  let payload := request_payload self w user_input in
  tell (EvPost api_url payload) ;;
  match session_post w api_url payload with
  | PostRaises e => raise e
  | PostResponse status json =>
      if negb (status =? 200) then
        raise (ConversationError ("API error: " ++ str_of_Z status))
      else
        read_envelope json
  end.

(** The [try] block of [async_process]. *)
Definition process_body (self : GlitchCubeConversationEntity) (w : world)
    (user_input : ConversationInput.t) : M ConversationResult.t :=
  conversation_data <- fetch_conversation_data self w user_input ;;
  route_response w conversation_data user_input.

Definition timeout_apology : string :=
  "I'm having trouble thinking right now. Please try again.".
Definition unreachable_apology : string :=
  "I can't connect to my brain right now. Please try again.".
Definition conversation_apology : string :=
  "Something went wrong with my thinking. Please try again.".
Definition unexpected_apology : string :=
  "I encountered an unexpected error. Please try again.".

(** The [except] clauses of [async_process], first match wins. *)
Definition apology_for (e : exn) : string :=
  if is_TimeoutError e then timeout_apology
  else if is_ClientError e then unreachable_apology
  else if is_ConversationError e then conversation_apology
  else unexpected_apology.

Definition async_process (self : GlitchCubeConversationEntity) (w : world)
    (user_input : ConversationInput.t) : trace * ConversationResult.t :=
  match process_body self w user_input with
  | (t, inr result) => (t, result)
  | (t, inl e) => (t, _create_error_response user_input (apology_for e))
  end.

End Agent.

(* ===================================================================== *)
(** ** Concrete turns *)
(* ===================================================================== *)

Module Samples.
Import Py Eff Agent.

Definition entry : ConfigEntry.t :=
  {| ConfigEntry.entry_id := "abc123";
     ConfigEntry.data := [("host", PStr "10.0.0.5"); ("port", PInt 4567)] |}.

Definition entry_dynamic : ConfigEntry.t :=
  {| ConfigEntry.entry_id := "abc123";
     ConfigEntry.data := [("host", PStr ""); ("port", PInt 8080)] |}.

Definition hello : ConversationInput.t :=
  {| ConversationInput.text := "turn on the lights";
     ConversationInput.conversation_id := Some "01HZX";
     ConversationInput.device_id := None;
     ConversationInput.language := "en" |}.

(** A backend that answers every post with [status] and the decoded
    [body]; no dynamic host is published; every service call goes
    through. *)
Definition answering (status : Z) (body : pyval) : world :=
  {| states_get := fun _ => StateMissing;
     services_async_call := fun _ _ => None;
     session_post := fun _ _ => PostResponse status (inr body);
     utcnow_isoformat := "2025-08-20T12:00:00+00:00" |}.

(** The same world with other outcomes of the service calls. *)
Definition with_services (w : world) (calls : string -> string -> option exn)
  : world :=
  {| states_get := states_get w;
     services_async_call := calls;
     session_post := session_post w;
     utcnow_isoformat := utcnow_isoformat w |}.

Definition with_host_state (w : world) (r : state_read) : world :=
  {| states_get := fun _ => r;
     services_async_call := services_async_call w;
     session_post := session_post w;
     utcnow_isoformat := utcnow_isoformat w |}.

Definition envelope (data : list (string * pyval)) : pyval :=
  PDict [("success", PBool true); ("data", PDict data)].

Definition spoken (r : ConversationResult.t) : pyval :=
  IntentResponse.speech (ConversationResult.response r).

Definition long_text : string :=
  "0123456789012345678901234567890123456789012345678901234567890123456789" ++
  "0123456789012345678901234567890123456789-and-this-part-is-cut-off".

(** A backend that never answers in time. *)
Definition timing_out : world :=
  {| states_get := fun _ => StateMissing;
     services_async_call := fun _ _ => None;
     session_post := fun _ _ => PostRaises TimeoutError;
     utcnow_isoformat := "2025-08-20T12:00:00+00:00" |}.

End Samples.

(* ===================================================================== *)
(** ** The vocabulary of the specification *)
(* ===================================================================== *)

Module Spec.
Import Py Eff Agent Samples.

Definition immediate_tag : string := "immediate_speech_with_background_tools".

(** Whether a service call of world [w] is dispatched (does not raise). *)
Definition dispatched (w : world) (domain service : string) : bool :=
  match services_async_call w domain service with None => true | Some _ => false end.

Definition cloud_say_data (message : pyval) : pyval :=
  PDict [("entity_id", PStr "media_player.square_voice");
         ("message", message);
         ("language", PStr "en-US")].

Definition play_media_data : pyval :=
  PDict [("entity_id", PStr "media_player.square_voice");
         ("media_content_id", PStr "/media/sounds/listening_resume.wav");
         ("media_content_type", PStr "audio/wav")].

Definition speak_event (w : world) (message : pyval) : event :=
  EvServiceCall "tts" "cloud_say" (cloud_say_data message) false
    (dispatched w "tts" "cloud_say").

Definition alert_event (w : world) : event :=
  EvServiceCall "media_player" "play_media" play_media_data false
    (dispatched w "media_player" "play_media").

(** The delayed re-arm sequence: the sleep, then the alert. *)
Definition rearm_events (w : world) (delay : pyval) : trace :=
  [EvSleep delay; alert_event w].

Definition trouble_fallback : string := "I had some trouble with that response.".
Definition not_understood : string := "I didn't understand that.".
Definition speaking_safety : string := "Sorry, I'm having trouble speaking right now.".

(** The known shapes of a response object. *)
Definition shape_nested_speech (raw : pyval) : R pyval :=
  (sp <- get raw "speech" (PDict []) ;;
   pl <- get sp "plain" (PDict []) ;;
   get pl "speech" PNone)%monad.

Definition shape_response (raw : pyval) : R pyval := get raw "response" PNone.

Definition shape_claude_response (raw : pyval) : R pyval :=
  (da <- get raw "data" (PDict []) ;;
   cu <- get da "custom_data" (PDict []) ;;
   claude <- get cu "claude_response" (PStr "") ;;
   ret (PStr (take 100 (str claude))))%monad.

(** Try each shape in order; the first that yields a truthy value wins,
    and shapes after it are not looked at. *)
Fixpoint first_shape (shapes : list (pyval -> R pyval)) (raw fallback : pyval)
  : R pyval :=
  match shapes with
  | [] => ret fallback
  | shape :: rest =>
      (v <- shape raw ;;
       if truthy v then ret v else first_shape rest raw fallback)%monad
  end.

Definition priority_order : list (pyval -> R pyval) :=
  [shape_nested_speech; shape_response; shape_claude_response].

(** Trim, and substitute the safety string for an empty text. *)
Definition ensure_speech (v : pyval) : R string :=
  (s <- strip_method v ;;
   ret (if (s =? "")%string then speaking_safety else s))%monad.

Definition extract_by_priority (conversation_data : pyval) : R string :=
  (raw <- get conversation_data "response" (PStr "") ;;
   text <- (if isinstance_dict raw
            then first_shape priority_order raw (PStr trouble_fallback)
            else ret (if truthy raw then PStr (str raw) else PStr not_understood)) ;;
   ensure_speech text)%monad.

(** The payload whose [response] field is [raw]. *)
Definition of_response (raw : pyval) : pyval := PDict [("response", raw)].

(** What becomes of the text picked by the fallback chain: trimmed, and
    the safety string when nothing is left. *)
Definition cleaned (text : string) : string :=
  if (strip text =? "")%string then speaking_safety else strip text.

(** The payload a turn hands to the branch on [response_type], if it gets
    that far. *)
Definition reaches (self : GlitchCubeConversationEntity) (w : world)
    (user_input : ConversationInput.t) (payload : list (string * pyval)) : Prop :=
  exists t, fetch_conversation_data self w user_input = (t, inr (PDict payload)).

Definition tag (payload : list (string * pyval)) : pyval :=
  dict_get payload "response_type" (PStr "normal").

Definition endpoint (host port : string) : string :=
  "http://" ++ host ++ ":" ++ port ++ "/api/v1/conversation".

Definition production_host : string := "192.168.0.99".

(** The unset markers of the state store. *)
Definition is_unset (state : string) : bool :=
  ((state =? "") || (state =? "unknown") || (state =? "unavailable"))%string.

(** The host published in the state store, when there is one: the entity
    exists, reading it does not fail, and its state is no unset marker. *)
Definition dynamic_host (w : world) : option string :=
  match states_get w "input_text.glitchcube_host" with
  | StateOf state => if is_unset state then None else Some state
  | StateMissing => None
  | StateRaises _ => None
  end.

Definition configured_host (c : ConfigEntry.t) : pyval :=
  dict_get (ConfigEntry.data c) "host" (PStr "").

(** The port of the configuration, 4567 when it has none. *)
Definition configured_port (c : ConfigEntry.t) : pyval :=
  match lookup "port" (ConfigEntry.data c) with
  | Some port => port
  | None => PInt 4567
  end.

(** Resolution as the specification orders it. *)
Definition resolve (c : ConfigEntry.t) (w : world) : string :=
  let host :=
    match dynamic_host w with
    | Some state => strip state
    | None => if truthy (configured_host c) then str (configured_host c)
              else production_host
    end in
  endpoint host (str (configured_port c)).

(** The four sentences a failed turn can be answered with, word for
    word. *)
Definition apologies : list string :=
  ["I'm having trouble thinking right now. Please try again.";
   "I can't connect to my brain right now. Please try again.";
   "Something went wrong with my thinking. Please try again.";
   "I encountered an unexpected error. Please try again."].

(** The sentence for each class of failure: a timeout, an unreachable
    transport, a bad status or a rejection by the backend, anything
    else. *)
Definition apology_by_class (e : exn) : string :=
  if is_TimeoutError e then
    "I'm having trouble thinking right now. Please try again."
  else if is_ClientError e then
    "I can't connect to my brain right now. Please try again."
  else if is_ConversationError e then
    "Something went wrong with my thinking. Please try again."
  else
    "I encountered an unexpected error. Please try again.".

(** The failures of the exchange with the backend, each with the sentence
    it is answered with. *)
Inductive client_failure : http_outcome -> string -> Prop :=
| Timeout (e : exn) :
    is_TimeoutError e = true ->
    client_failure (PostRaises e)
      "I'm having trouble thinking right now. Please try again."
| Unreachable (e : exn) :
    is_TimeoutError e = false -> is_ClientError e = true ->
    client_failure (PostRaises e)
      "I can't connect to my brain right now. Please try again."
| UnexpectedTransport (e : exn) :
    is_TimeoutError e = false -> is_ClientError e = false ->
    is_ConversationError e = false ->
    client_failure (PostRaises e)
      "I encountered an unexpected error. Please try again."
| BackendStatus (status : Z) (json : R pyval) :
    status <> 200 ->
    client_failure (PostResponse status json)
      "Something went wrong with my thinking. Please try again."
| BackendRejected (envelope : list (string * pyval)) :
    truthy (dict_get envelope "success" (PBool false)) = false ->
    client_failure (PostResponse 200 (inr (PDict envelope)))
      "Something went wrong with my thinking. Please try again."
| UnreadableBody (e : exn) :
    client_failure (PostResponse 200 (inl e)) (apology_by_class e)
| BodyNotAnObject (body : pyval) :
    isinstance_dict body = false ->
    client_failure (PostResponse 200 (inr body))
      "I encountered an unexpected error. Please try again.".



End Spec.

(* ===================================================================== *)
(** ** config_flow.py *)
(* ===================================================================== *)

Module ConfigFlow.
Import Py Eff Const.
Local Open Scope monad_scope.

(** [d[k] = v]: the value of an existing key is replaced where it stands,
    a new key goes to the end. *)
Fixpoint dict_set (items : list (string * pyval)) (k : string) (v : pyval)
  : list (string * pyval) :=
  match items with
  | [] => [(k, v)]
  | (k', v') :: rest =>
      if (k' =? k)%string then (k', v) :: rest else (k', v') :: dict_set rest k v
  end.

(** What the flow can raise: its own [CannotConnect], the platform's
    [AbortFlow], and the exceptions of [Py.exn].  All three are subclasses
    of [Exception]; [CannotConnect] and [AbortFlow] are neither a timeout
    nor a client error. *)
Inductive flow_exn : Type :=
| CannotConnect (msg : string)
| AbortFlow (reason : string)
| Raised (e : exn).

(** The only effect of the flow that is recorded: the health probe. *)
Inductive flow_event : Type :=
| EvGet (url : string).

(** The platform during setup.  [session_get] is [session.get(url)] with
    the outcomes of a post; [unique_id_check] is [async_set_unique_id]
    followed by [_abort_if_unique_id_configured]: [None] when both pass,
    the reason when one of them raises [AbortFlow]; [exception_text] is
    [str(e)] of an exception of the interpreter or of a library. *)
Record setup : Type := {
  hass : world;
  session_get : string -> http_outcome;
  unique_id_check : string -> option string;
  exception_text : exn -> string
}.

Definition F (A : Type) : Type := (list flow_event * (flow_exn + A))%type.

#[export] Instance Monad_F : Monad F := {
  ret := fun A a => ([], inr a);
  bind := fun A B m k =>
    match m with
    | (t, inl e) => (t, inl e)
    | (t, inr a) => let (t', r) := k a in ((t ++ t')%list, r)
    end
}.

Definition fail {A} (e : flow_exn) : F A := ([], inl e).
Definition probe (url : string) : F unit := ([EvGet url], inr tt).

(** Pure code of [Py] inside the flow. *)
Definition pure {A} (r : R A) : F A :=
  match r with inl e => ([], inl (Raised e)) | inr a => ([], inr a) end.

(** [str(e)] *)
Definition flow_exn_text (s : setup) (e : flow_exn) : string :=
  match e with
  | CannotConnect msg => msg
  | AbortFlow reason => reason
  | Raised e' => exception_text s e'
  end.

Definition production_ip : string := "192.168.0.99".

(** Lines 31-55 of [validate_input]: the host to probe, and [data] after
    the branch has run. *)
Definition choose_host (s : setup) (data : list (string * pyval))
  : pyval * list (string * pyval) :=
  if truthy (dict_get data "host" PNone) then
    (dict_get data "host" PNone, data)
  else
    match states_get (hass s) "input_text.glitchcube_host" with
    | StateOf state =>
        if negb (state =? "")%string
        then (PStr state, dict_set data "host" (PStr ""))
        else (PStr production_ip, dict_set data "host" (PStr ""))
    | StateMissing => (PStr production_ip, dict_set data "host" (PStr ""))
    | StateRaises _ => (PStr production_ip, dict_set data "host" (PStr ""))
    end.

(** The dict [validate_input] returns. *)
Record info : Type := { title : string; version : pyval }.

Definition health_url (host port : pyval) : string :=
  "http://" ++ str host ++ ":" ++ str port ++ "/health".

(** The [try] block of [validate_input]. *)
Definition probe_body (s : setup) (host port : pyval) : F info :=
  let url := health_url host port in
  probe url ;;
  match session_get s url with
  | PostRaises e => fail (Raised e)
  | PostResponse status json =>
      if status =? 200 then
        health_data <- pure json ;;
        v <- pure (get health_data "version" (PStr "unknown")) ;;
        ret {| title := "Glitch Cube (" ++ str host ++ ":" ++ str port ++ ")";
               version := v |}
      else
        fail (CannotConnect "Health check failed")
  end.

(** The [except] clauses of [validate_input], first match wins. *)
Definition connect_error (s : setup) (e : flow_exn) : flow_exn :=
  match e with
  | Raised e' =>
      if is_TimeoutError e' then
        CannotConnect "Connection timeout - ensure Glitch Cube is running"
      else if is_ClientError e' then
        CannotConnect "Connection error - check if Glitch Cube service is available"
      else CannotConnect ("Unexpected error: " ++ flow_exn_text s e)
  | _ => CannotConnect ("Unexpected error: " ++ flow_exn_text s e)
  end.

(** [validate_input(hass, data)]: the dict [data] as the call leaves it
    (the caller holds the same object), and the run. *)
Definition validate_input (s : setup) (data : list (string * pyval))
  : list (string * pyval) * F info :=
  let (host, data') := choose_host s data in
  let port := dict_get data' "port" (PInt DEFAULT_PORT) in
  (data',
   match probe_body s host port with
   | (t, inl e) => (t, inl (connect_error s e))
   | (t, inr i) => (t, inr i)
   end).

Inductive FlowResult : Type :=
| ShowForm (errors : list (string * string))
| CreateEntry (entry_title : string) (data : list (string * pyval)).

(** The [try] block of [async_step_user]. *)
Definition step_body (s : setup) (user_input : list (string * pyval))
  : list (string * pyval) * F info :=
  match unique_id_check s DOMAIN with
  | Some reason => (user_input, fail (AbortFlow reason))
  | None => validate_input s user_input
  end.

Definition async_step_user (s : setup) (user_input : option (list (string * pyval)))
  : list flow_event * FlowResult :=
  match user_input with
  | None => ([], ShowForm [])
  | Some data =>
      match step_body s data with
      | (data', (t, inr i)) => (t, CreateEntry (title i) data')
      | (_, (t, inl (CannotConnect _))) => (t, ShowForm [("base", "cannot_connect")])
      | (_, (t, inl _)) => (t, ShowForm [("base", "unknown")])
      end
  end.

End ConfigFlow.

(* ===================================================================== *)
(** ** Notions for the properties of whole turns and of the setup flow *)
(* ===================================================================== *)

Module Notions.
Import Py Eff Const Agent Samples Spec ConfigFlow.

(** How the branch on [response_type] can end: what it did and what it
    gave back. *)
Inductive route_outcome (w : world) (user_input : ConversationInput.t)
  : M ConversationResult.t -> Prop :=
| raised_quietly (e : exn) :
    route_outcome w user_input ([], inl e)
| raised_after_speech (message : pyval) (e : exn) :
    route_outcome w user_input ([speak_event w message], inl e)
| session_closed (speech flag : pyval) :
    truthy flag = false ->
    route_outcome w user_input ([], inr (make_result user_input speech flag))
| session_kept_open (speech flag delay : pyval) :
    truthy flag = true ->
    route_outcome w user_input
      (rearm_events w delay, inr (make_result user_input speech flag))
| session_kept_open_after_speech (message speech flag delay : pyval) :
    truthy flag = true ->
    route_outcome w user_input
      (speak_event w message :: rearm_events w delay,
       inr (make_result user_input speech flag)).

(** How a whole turn can end: the post, then either nothing or the
    speech call alone with a falsy flag in the result, or the re-arm
    sequence (after the speech call or not) with a truthy flag. *)
Inductive turn_outcome (self : GlitchCubeConversationEntity) (w : world)
    (user_input : ConversationInput.t) : trace * ConversationResult.t -> Prop :=
| turn_closed (rest : trace) (speech flag : pyval) :
    truthy flag = false ->
    (rest = [] \/ exists message, rest = [speak_event w message]) ->
    turn_outcome self w user_input
      (EvPost (_get_current_api_url self w) (request_payload self w user_input) :: rest,
       make_result user_input speech flag)
| turn_kept_open (before : trace) (speech flag delay : pyval) :
    truthy flag = true ->
    (before = [] \/ exists message, before = [speak_event w message]) ->
    turn_outcome self w user_input
      (EvPost (_get_current_api_url self w) (request_payload self w user_input)
         :: (before ++ rearm_events w delay)%list,
       make_result user_input speech flag).

(** The events of a turn after its post. *)
Inductive after_post (w : world) : trace -> Prop :=
| nothing_more : after_post w []
| spoke (message : pyval) : after_post w [speak_event w message]
| rearmed (delay : pyval) : after_post w (rearm_events w delay)
| spoke_and_rearmed (message delay : pyval) :
    after_post w (speak_event w message :: rearm_events w delay).

(** The trace ends with the re-arm sequence. *)
Definition ends_with_rearm (w : world) (t : trace) : Prop :=
  exists before delay, t = (before ++ rearm_events w delay)%list.

Definition is_post (ev : event) : bool :=
  match ev with EvPost _ _ => true | _ => false end.

(** [v[k1][k2]] when both levels are dicts holding the keys. *)
Definition under (v : pyval) (k1 k2 : string) : option pyval :=
  match v with
  | PDict items =>
      match lookup k1 items with
      | Some (PDict inner) => lookup k2 inner
      | _ => None
      end
  | _ => None
  end.

(** The session id a turn sends to the backend. *)
Definition session_id_sent (self : GlitchCubeConversationEntity) (w : world)
    (user_input : ConversationInput.t) : option pyval :=
  under (request_payload self w user_input) "context" "session_id".

(** The text a conversation id contributes to the session id: the id,
    or the text of [None] when the turn has none. *)
Definition session_key (user_input : ConversationInput.t) : string :=
  match ConversationInput.conversation_id user_input with
  | Some id => id
  | None => "None"
  end.

(** The scheme, host and port part of a URL. *)
Definition authority (host port : pyval) : string :=
  "http://" ++ str host ++ ":" ++ str port.

(** The host the setup flow probes, by the order its comment gives:
    explicit, then dynamic, then default. *)
Definition probe_host (s : setup) (data : list (string * pyval)) : pyval :=
  match lookup "host" data with
  | Some explicit =>
      if truthy explicit then explicit
      else match states_get (hass s) "input_text.glitchcube_host" with
           | StateOf state => if (state =? "")%string then PStr production_ip
                              else PStr state
           | _ => PStr production_ip
           end
  | None =>
      match states_get (hass s) "input_text.glitchcube_host" with
      | StateOf state => if (state =? "")%string then PStr production_ip
                         else PStr state
      | _ => PStr production_ip
      end
  end.

Definition probe_port (data : list (string * pyval)) : pyval :=
  dict_get data "port" (PInt DEFAULT_PORT).

Definition probe_url (s : setup) (data : list (string * pyval)) : string :=
  health_url (probe_host s data) (probe_port data).

(** The failures of the health probe, each with the message of the
    [CannotConnect] it ends in. *)
Inductive probe_failure (s : setup) : http_outcome -> string -> Prop :=
| probe_timeout (e : exn) :
    is_TimeoutError e = true ->
    probe_failure s (PostRaises e)
      "Connection timeout - ensure Glitch Cube is running"
| probe_unreachable (e : exn) :
    is_TimeoutError e = false -> is_ClientError e = true ->
    probe_failure s (PostRaises e)
      "Connection error - check if Glitch Cube service is available"
| probe_unexpected (e : exn) :
    is_TimeoutError e = false -> is_ClientError e = false ->
    probe_failure s (PostRaises e) ("Unexpected error: " ++ exception_text s e)
| probe_bad_status (status : Z) (json : R pyval) :
    status <> 200 ->
    probe_failure s (PostResponse status json) "Unexpected error: Health check failed"
| probe_body_timeout (e : exn) :
    is_TimeoutError e = true ->
    probe_failure s (PostResponse 200 (inl e))
      "Connection timeout - ensure Glitch Cube is running"
| probe_body_unreachable (e : exn) :
    is_TimeoutError e = false -> is_ClientError e = true ->
    probe_failure s (PostResponse 200 (inl e))
      "Connection error - check if Glitch Cube service is available"
| probe_body_unreadable (e : exn) :
    is_TimeoutError e = false -> is_ClientError e = false ->
    probe_failure s (PostResponse 200 (inl e)) ("Unexpected error: " ++ exception_text s e)
| probe_body_not_an_object (body : pyval) :
    isinstance_dict body = false ->
    probe_failure s (PostResponse 200 (inr body))
      ("Unexpected error: " ++ exception_text s AttributeError).

(** The health probe went through: status 200 and a JSON object. *)
Definition probe_ok (o : http_outcome) : Prop :=
  exists health, o = PostResponse 200 (inr (PDict health)).

(** A setup in which the backend answers the probe with [status] and
    [body], the store holds [host_state], and the unique id is free. *)
Definition setting_up (host_state : state_read) (status : Z) (body : pyval) : setup :=
  {| hass := with_host_state (answering 200 PNone) host_state;
     session_get := fun _ => PostResponse status (inr body);
     unique_id_check := fun _ => None;
     exception_text := fun _ => "error" |}.

Definition healthy : pyval := PDict [("version", PStr "1.2.0")].

End Notions.

(* ===================================================================== *)
(** ** The end-to-end scenarios *)
(* ===================================================================== *)

Module Scenarios.
Import Py Eff Agent Samples Spec.

(** The two end-to-end scenarios of the specification. *)
Example scenario_normal :
  let body := envelope [("response_type", PStr "normal");
                        ("response", PStr "Hello there");
                        ("continue_conversation", PBool false)] in
  let r := snd (async_process (__init__ entry) (answering 200 body) hello) in
  spoken r = PStr "Hello there" /\
  ConversationResult.continue_conversation r = PBool false.
Proof. vm_compute. split; reflexivity. Qed.

Example scenario_status_500 :
  let r := snd (async_process (__init__ entry) (answering 500 PNone) hello) in
  spoken r = PStr "Something went wrong with my thinking. Please try again." /\
  ConversationResult.continue_conversation r = PBool false.
Proof. vm_compute. split; reflexivity. Qed.

End Scenarios.

(* ===================================================================== *)
(** ** Laws of the two monads and of the builtins *)
(* ===================================================================== *)

Module Laws.
Import Py Eff.

Lemma bind_lift_inr {A B} (a : A) (k : A -> M B) :
  bind (lift (inr a)) k = k a.
Proof. unfold lift. cbn. destruct (k a) as [t r]. reflexivity. Qed.

Lemma bind_lift_inl {A B} (e : exn) (k : A -> M B) :
  bind (lift (inl e)) k = ([], inl e).
Proof. reflexivity. Qed.

Lemma bind_ret {A B} (a : A) (k : A -> M B) : bind (ret a) k = k a.
Proof. cbn. destruct (k a) as [t r]. reflexivity. Qed.

Lemma bind_tell {B} (ev : event) (k : unit -> M B) :
  bind (tell ev) k = (ev :: fst (k tt), snd (k tt)).
Proof. cbn. destruct (k tt) as [t r]. reflexivity. Qed.

Lemma bind_raise {A B} (e : exn) (k : A -> M B) : bind (raise e) k = ([], inl e).
Proof. reflexivity. Qed.

Lemma get_dict (items : list (string * pyval)) (k : string) (d : pyval) :
  get (PDict items) k d = inr (dict_get items k d).
Proof. reflexivity. Qed.

Lemma eq_str_true (v : pyval) (lit : string) :
  eq_str v lit = true <-> v = PStr lit.
Proof.
  destruct v; cbn; try (split; [discriminate | intros H; discriminate H]).
  rewrite String.eqb_eq. split; [intros -> | intros [= ->]]; reflexivity.
Qed.

Lemma eq_str_false (v : pyval) (lit : string) :
  eq_str v lit = false <-> v <> PStr lit.
Proof.
  rewrite <- eq_str_true. destruct (eq_str v lit); split; congruence.
Qed.

Lemma dict_get_absent (items : list (string * pyval)) (k : string) (d : pyval) :
  lookup k items = None -> dict_get items k d = d.
Proof. unfold dict_get. intros ->. reflexivity. Qed.

Lemma dict_get_present (items : list (string * pyval)) (k : string) (d v : pyval) :
  lookup k items = Some v -> dict_get items k d = v.
Proof. unfold dict_get. intros ->. reflexivity. Qed.

End Laws.

(* ===================================================================== *)
(** ** ResponseRouter: the branch on response_type *)
(* ===================================================================== *)

Module Routing.
Import Py Eff Agent Samples Spec Laws.

Lemma route_response_unfold
    (w : world) (payload : list (string * pyval)) (user_input : ConversationInput.t) :
  route_response w (PDict payload) user_input =
    let rt := dict_get payload "response_type" (PStr "normal") in
    if eq_str rt immediate_tag then
      _handle_immediate_speech_with_background_tools w (PDict payload) user_input
    else if eq_str rt "error" then
      _handle_error_response (PDict payload) user_input
    else
      _handle_normal_response w (PDict payload) user_input.
Proof. unfold route_response. rewrite get_dict, bind_lift_inr. reflexivity. Qed.

(** An absent [response_type], the value [normal] and any value that is
    not one of the two tags (a string or not) all reach the normal
    handler. *)
Lemma route_response_default
    (w : world) (payload : list (string * pyval)) (user_input : ConversationInput.t) :
  (lookup "response_type" payload = None \/
   lookup "response_type" payload = Some (PStr "normal") \/
   (exists v, lookup "response_type" payload = Some v /\
              v <> PStr immediate_tag /\ v <> PStr "error")) ->
  route_response w (PDict payload) user_input =
    _handle_normal_response w (PDict payload) user_input.
Proof.
  intros H. rewrite route_response_unfold. cbv zeta.
  assert (Hrt : dict_get payload "response_type" (PStr "normal") <> PStr immediate_tag /\
                dict_get payload "response_type" (PStr "normal") <> PStr "error").
  { destruct H as [H | [H | (v & H & Hi & He)]].
    - rewrite (dict_get_absent _ _ _ H). split; discriminate.
    - rewrite (dict_get_present _ _ _ _ H). split; discriminate.
    - rewrite (dict_get_present _ _ _ _ H). split; assumption. }
  destruct Hrt as [Hi He].
  apply eq_str_false in Hi, He. rewrite Hi, He. reflexivity.
Qed.

(** C1, as the code has it.  For every payload (a dict), the branch on
    [response_type] selects exactly one handler: the value
    [immediate_speech_with_background_tools] selects
    [_handle_immediate_speech_with_background_tools], the value [error]
    selects [_handle_error_response], and every other value selects
    [_handle_normal_response]; the value read is [normal] when the key is
    absent. *)
Theorem route_response_selects_one_handler
    (w : world) (payload : list (string * pyval)) (user_input : ConversationInput.t) :
  let cd := PDict payload in
  let rt := dict_get payload "response_type" (PStr "normal") in
  (rt = PStr immediate_tag /\
   route_response w cd user_input =
     _handle_immediate_speech_with_background_tools w cd user_input)
  \/
  (rt = PStr "error" /\ rt <> PStr immediate_tag /\
   route_response w cd user_input = _handle_error_response cd user_input)
  \/
  (rt <> PStr immediate_tag /\ rt <> PStr "error" /\
   route_response w cd user_input = _handle_normal_response w cd user_input).
Proof.
  intros cd rt. unfold cd. rewrite route_response_unfold. cbv zeta. fold rt.
  destruct (eq_str rt immediate_tag) eqn:Himm.
  - left. apply eq_str_true in Himm. split; [exact Himm | reflexivity].
  - apply eq_str_false in Himm.
    destruct (eq_str rt "error") eqn:Herr.
    + right; left. apply eq_str_true in Herr. repeat split; assumption.
    + right; right. apply eq_str_false in Herr. repeat split; assumption.
Qed.

(** C1, the sentence of the specification fails as written: the spelling
    [immediateSpeechWithBackgroundTools] is not the tag the code tests
    for, so such a payload is handled as a normal response: nothing is
    spoken ahead, there is no delay, and the session is not kept open. *)
Lemma camel_case_tag_is_handled_as_normal :
  let cd := PDict [("response_type", PStr "immediateSpeechWithBackgroundTools");
                   ("speech_text", PStr "On it!")] in
  let w := answering 200 PNone in
  route_response w cd hello = _handle_normal_response w cd hello /\
  route_response w cd hello =
    ([], inr (make_result hello (PStr "I didn't understand that.") (PBool false))) /\
  _handle_immediate_speech_with_background_tools w cd hello <>
    route_response w cd hello.
Proof.
  cbv zeta. split; [reflexivity | split; [reflexivity |]].
  vm_compute. discriminate.
Qed.

End Routing.

(* ===================================================================== *)
(** ** The three handlers and their side effects *)
(* ===================================================================== *)

Module Handlers.
Import Py Eff Agent Samples Spec Laws Routing.

(** A guarded service call: one event, never an exception. *)
Lemma guarded_call (w : world) (domain service : string) (data : pyval) (b : bool) :
  try_except (async_call w domain service data b) (fun _ => ret tt) =
    ([EvServiceCall domain service data b (dispatched w domain service)], inr tt).
Proof.
  unfold async_call, dispatched.
  destruct (services_async_call w domain service); reflexivity.
Qed.

Lemma play_listening_resume_sound_run (w : world) :
  _play_listening_resume_sound w = ([alert_event w], inr tt).
Proof. unfold _play_listening_resume_sound. apply guarded_call. Qed.

Lemma asyncio_sleep_int (n : Z) :
  n < float_int_limit -> asyncio_sleep (PInt n) = ([EvSleep (PInt n)], inr tt).
Proof.
  intros H. unfold asyncio_sleep.
  destruct (Z.ltb_spec n float_int_limit); [reflexivity | lia].
Qed.

Lemma default_delay_below_limit : 3 < float_int_limit.
Proof. reflexivity. Qed.

Lemma immediate_handler_run
    (w : world) (payload : list (string * pyval)) (user_input : ConversationInput.t)
    (s : string) (n : Z) :
  dict_get payload "speech_text" (PStr "On it!") = PStr s ->
  dict_get payload "continue_delay" (PInt 3) = PInt n ->
  n < float_int_limit ->
  _handle_immediate_speech_with_background_tools w (PDict payload) user_input =
    (speak_event w (PStr s) :: rearm_events w (PInt n),
     inr (make_result user_input (PStr " ") (PBool true))).
Proof.
  intros Hs Hn Hlim. unfold _handle_immediate_speech_with_background_tools.
  rewrite get_dict, bind_lift_inr, Hs.
  cbn [slice_to]. rewrite bind_lift_inr.
  rewrite guarded_call. rewrite get_dict.
  change (bind ([?ev], inr tt) ?k) with (bind (tell ev) k).
  rewrite bind_tell, bind_lift_inr, Hn, (asyncio_sleep_int _ Hlim).
  change (bind ([?ev], inr tt) ?k) with (bind (tell ev) k).
  rewrite bind_tell, play_listening_resume_sound_run.
  reflexivity.
Qed.

Lemma error_handler_run
    (payload : list (string * pyval)) (user_input : ConversationInput.t) :
  _handle_error_response (PDict payload) user_input =
    ([], inr (make_result user_input
                (dict_get payload "speech_text" (PStr "I encountered an error."))
                (PBool false))).
Proof. reflexivity. Qed.

(** C3.  For every payload whose [response_type] is [error], the turn's
    branch returns a result whose spoken text is the payload's
    [speech_text], or [I encountered an error.] when the key is absent,
    whose [continue_conversation] is [False], and the branch performs no
    effect at all: no sleep and no alert. *)
Theorem error_variant_ends_session_without_rearm
    (w : world) (payload : list (string * pyval)) (user_input : ConversationInput.t) :
  dict_get payload "response_type" (PStr "normal") = PStr "error" ->
  exists r,
    route_response w (PDict payload) user_input = ([], inr r) /\
    _handle_error_response (PDict payload) user_input = ([], inr r) /\
    spoken r = match lookup "speech_text" payload with
               | Some text => text
               | None => PStr "I encountered an error."
               end /\
    ConversationResult.continue_conversation r = PBool false.
Proof.
  intros Hrt.
  exists (make_result user_input
            (dict_get payload "speech_text" (PStr "I encountered an error."))
            (PBool false)).
  rewrite route_response_unfold. cbv zeta. rewrite Hrt.
  repeat split.
Qed.

Lemma error_variant_ends_session_without_rearm_witness :
  exists r,
    route_response (answering 200 PNone)
      (PDict [("response_type", PStr "error"); ("continue_conversation", PBool true)])
      hello = ([], inr r) /\
    _handle_error_response
      (PDict [("response_type", PStr "error"); ("continue_conversation", PBool true)])
      hello = ([], inr r) /\
    spoken r = PStr "I encountered an error." /\
    ConversationResult.continue_conversation r = PBool false.
Proof.
  apply (error_variant_ends_session_without_rearm (answering 200 PNone)
           [("response_type", PStr "error"); ("continue_conversation", PBool true)]
           hello).
  reflexivity.
Defined.

(** Outside the data model the handler raises before it returns: a
    [speech_text] of [None] cannot be sliced for the log line, and a delay
    that is no number is refused by [asyncio.sleep]; the turn then ends on
    the apology for unexpected errors. *)
Example ill_typed_immediate_payload_ends_in_apology :
  let turn data := snd (async_process (__init__ entry) (answering 200 (envelope data)) hello) in
  turn [("response_type", PStr immediate_tag); ("speech_text", PNone)] =
    _create_error_response hello unexpected_apology /\
  turn [("response_type", PStr immediate_tag); ("continue_delay", PStr "3")] =
    _create_error_response hello unexpected_apology.
Proof. cbv zeta. split; reflexivity. Qed.

End Handlers.

(* ===================================================================== *)
(** ** SideEffectPort: service calls are best effort *)
(* ===================================================================== *)

Module SideEffects.
Import Py Eff Agent Samples Spec Laws Routing Handlers.

Lemma snd_bind {A B} (m : M A) (k : A -> M B) :
  snd (bind m k) = match snd m with inl e => inl e | inr a => snd (k a) end.
Proof.
  destruct m as [t [e | a]]; cbn; [reflexivity |].
  destruct (k a); reflexivity.
Qed.

Lemma snd_bind_done {A B} (t : trace) (a : A) (k : A -> M B) :
  snd (bind ((t, inr a) : M A) k) = snd (k a).
Proof. rewrite snd_bind. reflexivity. Qed.

Lemma snd_async_process (self : GlitchCubeConversationEntity) (w : world)
    (user_input : ConversationInput.t) :
  snd (async_process self w user_input) =
    match snd (process_body self w user_input) with
    | inr r => r
    | inl e => _create_error_response user_input (apology_for e)
    end.
Proof.
  unfold async_process.
  destruct (process_body self w user_input) as [t [e | r]]; reflexivity.
Qed.

Lemma snd_play_listening_resume_sound (w : world) :
  snd (_play_listening_resume_sound w) = inr tt.
Proof. rewrite play_listening_resume_sound_run. reflexivity. Qed.

(** The outcome of the re-arm sequence depends on the delay only. *)
Lemma snd_rearm {B} (w : world) (delay : pyval) (k : unit -> M B) :
  snd (bind (asyncio_sleep delay) (fun _ => bind (_play_listening_resume_sound w) k)) =
    match snd (asyncio_sleep delay) with
    | inl e => inl e
    | inr _ => snd (k tt)
    end.
Proof.
  rewrite snd_bind. destruct (snd (asyncio_sleep delay)) as [e | []]; [reflexivity |].
  rewrite snd_bind, snd_play_listening_resume_sound. reflexivity.
Qed.

Lemma snd_immediate (w w' : world) (cd : pyval) (user_input : ConversationInput.t) :
  snd (_handle_immediate_speech_with_background_tools w cd user_input) =
  snd (_handle_immediate_speech_with_background_tools w' cd user_input).
Proof.
  unfold _handle_immediate_speech_with_background_tools.
  destruct (get cd "speech_text" (PStr "On it!")) as [e | speech_text];
    [reflexivity |].
  rewrite !bind_lift_inr.
  destruct (slice_to 50 speech_text) as [e | shown]; [reflexivity |].
  rewrite !bind_lift_inr, !guarded_call, !snd_bind_done.
  destruct (get cd "continue_delay" (PInt 3)) as [e | delay]; [reflexivity |].
  rewrite !bind_lift_inr, !snd_rearm. reflexivity.
Qed.

Lemma snd_normal (w w' : world) (cd : pyval) (user_input : ConversationInput.t) :
  snd (_handle_normal_response w cd user_input) =
  snd (_handle_normal_response w' cd user_input).
Proof.
  unfold _handle_normal_response.
  destruct (_extract_response_text cd) as [e | response_text]; [reflexivity |].
  rewrite !bind_lift_inr.
  destruct (get cd "continue_conversation" (PBool false)) as [e | cont];
    [reflexivity |].
  rewrite !bind_lift_inr.
  destruct (truthy cont); [| reflexivity].
  destruct (get cd "continue_delay" (PInt 3)) as [e | delay]; [reflexivity |].
  rewrite !bind_lift_inr.
  rewrite !snd_bind with (m := bind (asyncio_sleep delay) _).
  rewrite !snd_bind with (m := asyncio_sleep delay).
  destruct (snd (asyncio_sleep delay)) as [e | []]; [reflexivity |].
  rewrite !snd_play_listening_resume_sound. reflexivity.
Qed.

Lemma snd_route (w w' : world) (cd : pyval) (user_input : ConversationInput.t) :
  snd (route_response w cd user_input) = snd (route_response w' cd user_input).
Proof.
  unfold route_response.
  destruct (get cd "response_type" (PStr "normal")) as [e | rt]; [reflexivity |].
  rewrite !bind_lift_inr.
  destruct (eq_str rt "immediate_speech_with_background_tools");
    [apply snd_immediate |].
  destruct (eq_str rt "error"); [reflexivity | apply snd_normal].
Qed.

(** C9.  Neither service call can make the turn fail or change its
    result: the alert helper never raises, and for every turn the result
    returned (spoken text, continue flag and all) is the same in a world
    where the service calls raise as in one where they go through, all
    else being equal. *)
Theorem service_failures_do_not_change_the_result
    (self : GlitchCubeConversationEntity) (w : world)
    (calls : string -> string -> option exn) (user_input : ConversationInput.t) :
  snd (_play_listening_resume_sound (with_services w calls)) = inr tt /\
  snd (async_process self (with_services w calls) user_input) =
    snd (async_process self w user_input).
Proof.
  split; [apply snd_play_listening_resume_sound |].
  rewrite !snd_async_process. unfold process_body.
  change (fetch_conversation_data self (with_services w calls) user_input)
    with (fetch_conversation_data self w user_input).
  rewrite !snd_bind.
  destruct (snd (fetch_conversation_data self w user_input)) as [e | cd];
    [reflexivity |].
  rewrite (snd_route (with_services w calls) w). reflexivity.
Qed.

(** The same turn with both service calls raising and with both going
    through: the events differ in the dispatch marks only, the result not
    at all. *)
Example failing_services_same_result :
  let body := envelope [("response_type", PStr immediate_tag);
                        ("speech_text", PStr "Let me check.")] in
  let ok := answering 200 body in
  let failing := with_services ok (fun _ _ => Some (OtherException "ServiceNotFound")) in
  snd (async_process (__init__ entry) failing hello) =
    snd (async_process (__init__ entry) ok hello) /\
  fst (async_process (__init__ entry) failing hello) <>
    fst (async_process (__init__ entry) ok hello).
Proof. cbv zeta. split; [reflexivity | vm_compute; discriminate]. Qed.

End SideEffects.

(* ===================================================================== *)
(** ** NestedSpeech: extraction of the spoken text *)
(* ===================================================================== *)

Module Extraction.
Import Py Eff Agent Samples Spec Laws.

(** *** Facts about [strip] and [take] *)

Lemma rstrip_cons (c : ascii) (s : string) :
  rstrip (String c s) =
    match rstrip s with
    | EmptyString => if is_space c then EmptyString else String c EmptyString
    | String c' r => String c (String c' r)
    end.
Proof. reflexivity. Qed.

Lemma rstrip_idempotent (s : string) : rstrip (rstrip s) = rstrip s.
Proof.
  induction s as [| c s IH]; [reflexivity |].
  rewrite rstrip_cons. destruct (rstrip s) as [| c' r] eqn:E.
  - destruct (is_space c) eqn:Hc; [reflexivity |].
    rewrite rstrip_cons. cbn [rstrip]. rewrite Hc. reflexivity.
  - rewrite rstrip_cons, IH. reflexivity.
Qed.

Lemma lstrip_fixed (c : ascii) (s : string) :
  is_space c = false -> lstrip (String c s) = String c s.
Proof. intros H. cbn [lstrip]. rewrite H. reflexivity. Qed.

Lemma rstrip_head (c : ascii) (s : string) :
  is_space c = false -> exists r, rstrip (String c s) = String c r.
Proof.
  intros H. rewrite rstrip_cons. destruct (rstrip s) as [| c' r].
  - rewrite H. eexists; reflexivity.
  - eexists; reflexivity.
Qed.

Lemma lstrip_head (s : string) :
  lstrip s = "" \/ exists c r, lstrip s = String c r /\ is_space c = false.
Proof.
  induction s as [| c s IH]; [left; reflexivity |].
  cbn [lstrip]. destruct (is_space c) eqn:Hc; [exact IH |].
  right. exists c, s. split; [reflexivity | exact Hc].
Qed.

Lemma strip_idempotent (s : string) : strip (strip s) = strip s.
Proof.
  unfold strip.
  destruct (lstrip_head s) as [E | (c & r & E & Hc)]; rewrite E.
  - reflexivity.
  - destruct (rstrip_head c r Hc) as [r' E']. rewrite E'.
    rewrite (lstrip_fixed c r' Hc), <- E'. apply rstrip_idempotent.
Qed.

Lemma take_length (n : nat) (s : string) :
  String.length (take n s) = Nat.min n (String.length s).
Proof.
  revert s. induction n as [| n IH]; intros [| c s]; cbn; try reflexivity.
  rewrite IH. reflexivity.
Qed.

Lemma take_prefix (n : nat) (s : string) : exists rest, s = take n s ++ rest.
Proof.
  revert s. induction n as [| n IH]; intros s.
  - exists s. destruct s; reflexivity.
  - destruct s as [| c s]; [exists ""; reflexivity |].
    destruct (IH s) as [rest E]. exists rest. cbn. rewrite <- E. reflexivity.
Qed.

Lemma extract_refines_priority (conversation_data : pyval) :
  _extract_response_text conversation_data = extract_by_priority conversation_data.
Proof.
  unfold _extract_response_text, extract_by_priority, Const.RESPONSE_KEY.
  destruct (get conversation_data "response" (PStr "")) as [e | raw];
    [reflexivity |].
  cbn [bind Monad_R].
  destruct (isinstance_dict raw); [| reflexivity].
  unfold priority_order, first_shape, shape_nested_speech, shape_response,
    shape_claude_response, py_or.
  cbn [bind Monad_R ret].
  destruct (get raw "speech" (PDict [])) as [e | sp]; [reflexivity |].
  destruct (get sp "plain" (PDict [])) as [e | pl]; [reflexivity |].
  destruct (get pl "speech" PNone) as [e | nested]; [reflexivity |].
  destruct (truthy nested); [reflexivity |].
  destruct (get raw "response" PNone) as [e | simple]; [reflexivity |].
  destruct (truthy simple); [reflexivity |].
  destruct (get raw "data" (PDict [])) as [e | da]; [reflexivity |].
  destruct (get da "custom_data" (PDict [])) as [e | cu]; [reflexivity |].
  destruct (get cu "claude_response" (PStr "")) as [e | claude]; [reflexivity |].
  destruct (truthy (PStr (take 100 (str claude)))); reflexivity.
Qed.

(** C4.  [_extract_response_text] is the extraction by priority: on a
    response object it tries the shapes speech.plain.speech, response and
    data.custom_data.claude_response in this order and falls back to a
    fixed string when none yields text; and on the four inputs of the
    specification it gives [hi], [hello], the fallback string and
    [plain text]. *)
Theorem extraction_follows_priority_order_and_vectors :
  (forall conversation_data,
     _extract_response_text conversation_data = extract_by_priority conversation_data) /\
  priority_order = [shape_nested_speech; shape_response; shape_claude_response] /\
  _extract_response_text
    (of_response (PDict [("speech", PDict [("plain", PDict [("speech", PStr "hi")])])]))
    = inr "hi" /\
  _extract_response_text (of_response (PDict [("response", PStr "hello")]))
    = inr "hello" /\
  _extract_response_text (of_response (PDict [])) = inr trouble_fallback /\
  _extract_response_text (of_response (PStr "plain text")) = inr "plain text".
Proof.
  split; [exact extract_refines_priority |].
  repeat split.
Qed.

(** An earlier shape wins over a later one when both are present. *)
Example earlier_shape_wins :
  _extract_response_text
    (of_response
       (PDict [("data", PDict [("custom_data", PDict [("claude_response", PStr "third")])]);
               ("response", PStr "second");
               ("speech", PDict [("plain", PDict [("speech", PStr "first")])])]))
    = inr "first" /\
  _extract_response_text
    (of_response
       (PDict [("data", PDict [("custom_data", PDict [("claude_response", PStr "third")])]);
               ("response", PStr "second")]))
    = inr "second" /\
  _extract_response_text
    (of_response
       (PDict [("data", PDict [("custom_data", PDict [("claude_response", PStr "third")])])]))
    = inr "third".
Proof. repeat split. Qed.

End Extraction.

(* ===================================================================== *)
(** ** The claude_response fallback of the extraction *)
(* ===================================================================== *)

Module ClaudeFallback.
Import Py Eff Agent Samples Spec Laws Extraction.

(** C10.  On a response object whose speech.plain.speech and response
    shapes yield nothing truthy, the value under
    data.custom_data.claude_response (the empty string when absent) is
    turned into a string with [str] and cut to its first 100 characters,
    no more; that text, when not empty, is the one that is trimmed and
    spoken, and when it is empty the fixed fallback sentence is. *)
Theorem claude_response_is_cut_to_100_characters
    (payload raw sp pl da cu : list (string * pyval)) :
  dict_get payload "response" (PStr "") = PDict raw ->
  dict_get raw "speech" (PDict []) = PDict sp ->
  dict_get sp "plain" (PDict []) = PDict pl ->
  truthy (dict_get pl "speech" PNone) = false ->
  truthy (dict_get raw "response" PNone) = false ->
  dict_get raw "data" (PDict []) = PDict da ->
  dict_get da "custom_data" (PDict []) = PDict cu ->
  let claude := dict_get cu "claude_response" (PStr "") in
  let cut := take 100 (str claude) in
  (String.length cut <= 100)%nat /\
  String.length cut = Nat.min 100 (String.length (str claude)) /\
  (exists rest, str claude = cut ++ rest) /\
  _extract_response_text (PDict payload) =
    inr (if (cut =? "")%string then cleaned trouble_fallback else cleaned cut).
Proof.
  intros Hraw Hsp Hpl Hnested Hsimple Hda Hcu claude cut.
  split; [unfold cut; rewrite take_length; apply Nat.le_min_l |].
  split; [apply take_length |].
  split; [apply take_prefix |].
  unfold _extract_response_text, Const.RESPONSE_KEY.
  rewrite get_dict, Hraw. cbn [bind Monad_R isinstance_dict].
  rewrite get_dict, Hsp. cbn [bind Monad_R].
  rewrite get_dict, Hpl. cbn [bind Monad_R].
  rewrite get_dict. cbn [bind Monad_R]. rewrite Hnested.
  rewrite get_dict. cbn [bind Monad_R]. rewrite Hsimple.
  rewrite get_dict, Hda. cbn [bind Monad_R].
  rewrite get_dict, Hcu. cbn [bind Monad_R].
  rewrite get_dict. cbn [bind Monad_R ret].
  fold claude. fold cut. unfold py_or. cbn [truthy].
  destruct (cut =? "")%string; reflexivity.
Qed.

Lemma claude_response_is_cut_to_100_characters_witness :
  let raw := [("data", PDict [("custom_data",
                               PDict [("claude_response", PStr long_text)])])] in
  let cut := take 100 long_text in
  (String.length cut <= 100)%nat /\
  String.length cut = Nat.min 100 (String.length long_text) /\
  (exists rest, long_text = cut ++ rest) /\
  _extract_response_text (PDict [("response", PDict raw)]) =
    inr (if (cut =? "")%string then cleaned trouble_fallback else cleaned cut).
Proof.
  cbv zeta.
  apply (claude_response_is_cut_to_100_characters
           [("response",
             PDict [("data", PDict [("custom_data",
                                     PDict [("claude_response", PStr long_text)])])])]
           [("data", PDict [("custom_data",
                             PDict [("claude_response", PStr long_text)])])]
           [] []
           [("custom_data", PDict [("claude_response", PStr long_text)])]
           [("claude_response", PStr long_text)]);
    reflexivity.
Defined.

(** The cut is visible on the long text: 100 characters are spoken. *)
Example long_claude_response_spoken :
  _extract_response_text
    (of_response (PDict [("data", PDict [("custom_data",
                                          PDict [("claude_response", PStr long_text)])])]))
  = inr ("0123456789012345678901234567890123456789012345678901234567890123456789" ++
         "012345678901234567890123456789").
Proof. reflexivity. Qed.

(** A value that is not a string is cut in its [repr]. *)
Example dict_claude_response_spoken :
  _extract_response_text
    (of_response (PDict [("data", PDict [("custom_data",
                   PDict [("claude_response", PDict [("text", PStr "hi"); ("n", PInt 2)])])])]))
  = inr "{'text': 'hi', 'n': 2}".
Proof. reflexivity. Qed.

End ClaudeFallback.

(* ===================================================================== *)
(** ** TurnResult: what the spoken text of a turn can be *)
(* ===================================================================== *)

Module SpokenText.
Import Py Eff Agent Samples Spec Laws Routing Handlers SideEffects Extraction.







Lemma reaches_functional (self : GlitchCubeConversationEntity) (w : world)
    (user_input : ConversationInput.t) (p q : list (string * pyval)) :
  reaches self w user_input p -> reaches self w user_input q -> p = q.
Proof. intros [t Hp] [t' Hq]. rewrite Hp in Hq. congruence. Qed.



End SpokenText.

(* ===================================================================== *)
(** ** EndpointResolver *)
(* ===================================================================== *)

Module Endpoint.
Import Py Eff Agent Samples Spec Laws.

Lemma state_test_is_unset (state : string) :
  negb (state =? "")%string && not_in_unset_markers state = negb (is_unset state).
Proof.
  unfold not_in_unset_markers, is_unset.
  destruct (state =? "")%string, (state =? "unknown")%string,
    (state =? "unavailable")%string; reflexivity.
Qed.

(** C5.  Endpoint resolution always yields a URL, for every configuration
    and every state of the store (also when reading the store fails), and
    the URL is the one of the priority order: the published host when it
    is present and no unset marker, else the configured host when it is
    not empty, else the production address; the port is always the
    configured one, 4567 by default. *)
Theorem endpoint_resolution_follows_priority (c : ConfigEntry.t) (w : world) :
  _get_current_api_url (__init__ c) w = resolve c w.
Proof.
  unfold _get_current_api_url, resolve, dynamic_host, configured_host, configured_port,
    endpoint, production_host.
  change (match lookup "port" (ConfigEntry.data c) with
          | Some port => port
          | None => PInt 4567
          end)
    with (dict_get (ConfigEntry.data c) "port" (PInt Const.DEFAULT_PORT)).
  assert (Hcfg : _config_entry (__init__ c) = c).
  { unfold __init__. destruct (negb (truthy _)); reflexivity. }
  rewrite Hcfg.
  set (port := str (dict_get (ConfigEntry.data c) "port" (PInt Const.DEFAULT_PORT))).
  assert (Hstatic :
            match _api_url (__init__ c) with
            | Some url => if negb (url =? "")%string then url
                          else "http://192.168.0.99:" ++ port ++ conversation_path
            | None => "http://192.168.0.99:" ++ port ++ conversation_path
            end =
            "http://" ++
              (if truthy (dict_get (ConfigEntry.data c) "host" (PStr ""))
               then str (dict_get (ConfigEntry.data c) "host" (PStr ""))
               else "192.168.0.99") ++ ":" ++ port ++ "/api/v1/conversation").
  { unfold __init__. fold port.
    destruct (truthy (dict_get (ConfigEntry.data c) "host" (PStr ""))); reflexivity. }
  destruct (states_get w "input_text.glitchcube_host") as [e | | state];
    try exact Hstatic.
  rewrite state_test_is_unset.
  destruct (is_unset state); [exact Hstatic | reflexivity].
Qed.

(** The three levels of the priority order on concrete turns. *)
Example dynamic_host_beats_configured_host :
  _get_current_api_url (__init__ entry)
    (with_host_state (answering 200 PNone) (StateOf " 192.168.1.20 "))
  = "http://192.168.1.20:4567/api/v1/conversation".
Proof. reflexivity. Qed.

Example configured_host_beats_production_address :
  _get_current_api_url (__init__ entry)
    (with_host_state (answering 200 PNone) (StateOf "unavailable"))
  = "http://10.0.0.5:4567/api/v1/conversation" /\
  _get_current_api_url (__init__ entry)
    (with_host_state (answering 200 PNone) (StateRaises (OtherException "KeyError")))
  = "http://10.0.0.5:4567/api/v1/conversation".
Proof. split; reflexivity. Qed.

Example production_address_is_last_resort :
  _get_current_api_url (__init__ entry_dynamic) (answering 200 PNone)
  = "http://192.168.0.99:8080/api/v1/conversation" /\
  _get_current_api_url
    (__init__ {| ConfigEntry.entry_id := "e"; ConfigEntry.data := [] |})
    (with_host_state (answering 200 PNone) (StateOf "unknown"))
  = "http://192.168.0.99:4567/api/v1/conversation".
Proof. split; reflexivity. Qed.

End Endpoint.

(* ===================================================================== *)
(** ** BackendClient: failures of a turn and the status test *)
(* ===================================================================== *)

Module Failures.
Import Py Eff Agent Samples Spec Laws SideEffects.

Lemma apology_for_in_apologies (e : exn) : In (apology_for e) apologies.
Proof.
  unfold apology_for, apologies.
  destruct (is_TimeoutError e); [left; reflexivity |].
  destruct (is_ClientError e); [right; left; reflexivity |].
  destruct (is_ConversationError e);
    [right; right; left; reflexivity | right; right; right; left; reflexivity].
Qed.

Lemma client_failure_in_apologies (o : http_outcome) (msg : string) :
  client_failure o msg -> In msg apologies.
Proof.
  intros H. destruct H; try apply apology_for_in_apologies; cbn; auto.
Qed.

Lemma fetch_unfold (self : GlitchCubeConversationEntity) (w : world)
    (user_input : ConversationInput.t) :
  let url := _get_current_api_url self w in
  let payload := request_payload self w user_input in
  fetch_conversation_data self w user_input =
    match session_post w url payload with
    | PostRaises e => ([EvPost url payload], inl e)
    | PostResponse status json =>
        if status =? 200
        then (EvPost url payload :: fst (read_envelope json), snd (read_envelope json))
        else ([EvPost url payload],
              inl (ConversationError ("API error: " ++ str_of_Z status)))
    end.
Proof.
  intros url payload. unfold fetch_conversation_data. fold url payload.
  rewrite bind_tell.
  destruct (session_post w url payload) as [e | status json]; [reflexivity |].
  destruct (status =? 200); reflexivity.
Qed.

Lemma client_failure_raises (self : GlitchCubeConversationEntity) (w : world)
    (user_input : ConversationInput.t) (msg : string) :
  let url := _get_current_api_url self w in
  let payload := request_payload self w user_input in
  client_failure (session_post w url payload) msg ->
  exists e, fetch_conversation_data self w user_input = ([EvPost url payload], inl e) /\
            apology_for e = msg.
Proof.
  intros url payload H. rewrite fetch_unfold. fold url payload.
  remember (session_post w url payload) as o eqn:Ho. clear Ho.
  destruct H as [e Ht | e Ht Hc | e Ht Hc Hv | status json Hs | env Hsucc | e | body Hb].
  - exists e. split; [reflexivity |]. unfold apology_for. rewrite Ht. reflexivity.
  - exists e. split; [reflexivity |]. unfold apology_for. rewrite Ht, Hc. reflexivity.
  - exists e. split; [reflexivity |]. unfold apology_for. rewrite Ht, Hc, Hv. reflexivity.
  - apply Z.eqb_neq in Hs. rewrite Hs. eexists. split; reflexivity.
  - cbn [Z.eqb Pos.eqb]. unfold read_envelope.
    rewrite bind_lift_inr, get_dict, bind_lift_inr, Hsucc. cbn [negb].
    rewrite get_dict, bind_lift_inr. eexists. split; reflexivity.
  - exists e. split; reflexivity.
  - destruct body; try discriminate Hb; eexists; split; reflexivity.
Qed.

(** C6.  Whatever goes wrong in a turn is answered, not raised: when the
    body of the turn raises an exception, [async_process] returns a result
    whose spoken text is the sentence of the exception's class and whose
    [continue_conversation] is [False]; the sentence is one of
    [I'm having trouble thinking right now. Please try again.] (timeout),
    [I can't connect to my brain right now. Please try again.] (transport),
    [Something went wrong with my thinking. Please try again.] (status or
    rejection) and [I encountered an unexpected error. Please try again.]
    (anything else); and each failure of the exchange with the backend
    (timeout, transport error, status other than 200, rejection by the
    envelope, unreadable body) gets the sentence listed for it. *)
Theorem failures_are_answered_with_an_apology
    (self : GlitchCubeConversationEntity) (w : world) (user_input : ConversationInput.t) :
  (forall t e,
     process_body self w user_input = (t, inl e) ->
     async_process self w user_input =
       (t, make_result user_input (PStr (apology_by_class e)) (PBool false)) /\
     In (apology_by_class e)
        ["I'm having trouble thinking right now. Please try again.";
         "I can't connect to my brain right now. Please try again.";
         "Something went wrong with my thinking. Please try again.";
         "I encountered an unexpected error. Please try again."])
  /\
  (forall msg,
     client_failure
       (session_post w (_get_current_api_url self w) (request_payload self w user_input))
       msg ->
     async_process self w user_input =
       ([EvPost (_get_current_api_url self w) (request_payload self w user_input)],
        make_result user_input (PStr msg) (PBool false)) /\
     In msg apologies).
Proof.
  split.
  - intros t e H. unfold async_process. rewrite H.
    split; [reflexivity | apply (apology_for_in_apologies e)].
  - intros msg H.
    split; [| exact (client_failure_in_apologies _ _ H)].
    destruct (client_failure_raises self w user_input msg H) as (e & Hfetch & <-).
    unfold async_process, process_body. rewrite Hfetch. reflexivity.
Qed.

Lemma failures_are_answered_with_an_apology_witness :
  spoken (snd (async_process (__init__ entry) timing_out hello)) =
    PStr "I'm having trouble thinking right now. Please try again." /\
  ConversationResult.continue_conversation
    (snd (async_process (__init__ entry) timing_out hello)) = PBool false /\
  In "I'm having trouble thinking right now. Please try again." apologies.
Proof.
  destruct (failures_are_answered_with_an_apology (__init__ entry) timing_out hello)
    as [_ H].
  destruct (H "I'm having trouble thinking right now. Please try again."
              (Timeout TimeoutError eq_refl)) as [Hrun Hin].
  rewrite Hrun. repeat split. exact Hin.
Defined.

(** The four classes on concrete turns. *)
Example apology_per_failure :
  let say w := spoken (snd (async_process (__init__ entry) w hello)) in
  let raising e := {| states_get := fun _ => StateMissing;
                      services_async_call := fun _ _ => None;
                      session_post := fun _ _ => PostRaises e;
                      utcnow_isoformat := "" |} in
  say (raising TimeoutError) = PStr timeout_apology /\
  say (raising ServerTimeoutError) = PStr timeout_apology /\
  say (raising ClientError) = PStr unreachable_apology /\
  say (answering 503 PNone) = PStr conversation_apology /\
  say (answering 200 (PDict [("success", PBool false); ("error", PStr "no")]))
    = PStr conversation_apology /\
  say (answering 200 (PDict [("data", PDict [])])) = PStr conversation_apology /\
  say (answering 200 (PList [])) = PStr unexpected_apology /\
  say (answering 200 (envelope [("response", PDict [("response", PInt 7)])]))
    = PStr unexpected_apology /\
  say (raising (OtherException "RuntimeError")) = PStr unexpected_apology.
Proof. cbv zeta. repeat split. Qed.

End Failures.

Module StatusTest.
Import Py Eff Agent Samples Spec Laws Failures.

(** C8, as the code has it.  A response is a status error exactly when
    its status is not 200: any other status, 2xx or not, raises
    [ConversationError] with the status in its message before the body is
    looked at, and a 200 goes on to the reading of the envelope. *)
Theorem status_error_exactly_when_not_200
    (self : GlitchCubeConversationEntity) (w : world) (user_input : ConversationInput.t)
    (status : Z) (json : R pyval) :
  let url := _get_current_api_url self w in
  let payload := request_payload self w user_input in
  session_post w url payload = PostResponse status json ->
  fetch_conversation_data self w user_input =
    if status =? 200
    then bind (tell (EvPost url payload)) (fun _ => read_envelope json)
    else ([EvPost url payload],
          inl (ConversationError ("API error: " ++ str_of_Z status))).
Proof.
  intros url payload Hpost. rewrite fetch_unfold. fold url payload. rewrite Hpost.
  destruct (status =? 200); [rewrite bind_tell |]; reflexivity.
Qed.

Lemma status_error_exactly_when_not_200_witness :
  let body := envelope [("response", PStr "hi")] in
  let self := __init__ entry in
  let url := "http://10.0.0.5:4567/api/v1/conversation" in
  let payload := request_payload self (answering 200 body) hello in
  fetch_conversation_data self (answering 200 body) hello =
    bind (tell (EvPost url payload)) (fun _ => read_envelope (inr body)) /\
  fetch_conversation_data self (answering 404 body) hello =
    ([EvPost url payload], inl (ConversationError "API error: 404")).
Proof.
  cbv zeta. split.
  - apply (status_error_exactly_when_not_200 (__init__ entry)
             (answering 200 (envelope [("response", PStr "hi")])) hello 200
             (inr (envelope [("response", PStr "hi")]))).
    reflexivity.
  - apply (status_error_exactly_when_not_200 (__init__ entry)
             (answering 404 (envelope [("response", PStr "hi")])) hello 404
             (inr (envelope [("response", PStr "hi")]))).
    reflexivity.
Defined.

(** C8, the sentence of the specification fails as written: a 201 is a
    2xx status, and the turn
    treats it as a status error without reading its body. *)
Lemma status_201_is_a_status_error :
  let body := envelope [("response_type", PStr "normal"); ("response", PStr "hi")] in
  let self := __init__ entry in
  let w := answering 201 body in
  (200 <=? 201) && (201 <? 300) = true /\
  snd (fetch_conversation_data self w hello) = inl (ConversationError "API error: 201") /\
  spoken (snd (async_process self w hello)) =
    PStr "Something went wrong with my thinking. Please try again." /\
  spoken (snd (async_process self (answering 200 body) hello)) = PStr "hi".
Proof. cbv zeta. repeat split. Qed.

End StatusTest.

(* ===================================================================== *)
(** ** The normal handler *)
(* ===================================================================== *)

Module NormalHandler.
Import Py Eff Agent Samples Spec Notions Laws Routing Handlers SideEffects.

Lemma asyncio_sleep_cases (delay : pyval) :
  asyncio_sleep delay = ([EvSleep delay], inr tt) \/
  exists e, asyncio_sleep delay = ([], inl e) /\ apology_for e = unexpected_apology.
Proof.
  destruct delay as [| b | n | s | l | l]; unfold asyncio_sleep;
    try (right; eexists; split; reflexivity).
  - left; reflexivity.
  - destruct (n <? float_int_limit); [left; reflexivity |].
    right; eexists; split; reflexivity.
Qed.

Lemma rearm_run {B} (w : world) (delay : pyval) (k : M B) :
  asyncio_sleep delay = ([EvSleep delay], inr tt) ->
  bind (asyncio_sleep delay) (fun _ => bind (_play_listening_resume_sound w) (fun _ => k))
  = ((rearm_events w delay ++ fst k)%list, snd k).
Proof.
  intros ->. rewrite play_listening_resume_sound_run.
  change (bind ([EvSleep delay], inr tt) ?f) with (bind (tell (EvSleep delay)) f).
  rewrite bind_tell.
  change (bind ([alert_event w], inr tt) ?f) with (bind (tell (alert_event w)) f).
  rewrite bind_tell. reflexivity.
Qed.

Lemma normal_handler_unfold
    (w : world) (payload : list (string * pyval)) (user_input : ConversationInput.t)
    (s : string) :
  _extract_response_text (PDict payload) = inr s ->
  _handle_normal_response w (PDict payload) user_input =
    let flag := dict_get payload "continue_conversation" (PBool false) in
    let delay := dict_get payload "continue_delay" (PInt 3) in
    if truthy flag then
      bind (asyncio_sleep delay)
        (fun _ => bind (_play_listening_resume_sound w)
           (fun _ => ret (make_result user_input (PStr s) flag)))
    else ([], inr (make_result user_input (PStr s) flag)).
Proof.
  intros Hs. unfold _handle_normal_response.
  rewrite Hs, bind_lift_inr, get_dict, bind_lift_inr. cbv zeta.
  destruct (truthy (dict_get payload "continue_conversation" (PBool false))).
  - rewrite get_dict, bind_lift_inr.
    destruct (asyncio_sleep_cases (dict_get payload "continue_delay" (PInt 3)))
      as [Hok | (e & Hbad & _)].
    + rewrite (rearm_run w _ _ Hok).
      rewrite Hok. rewrite play_listening_resume_sound_run. reflexivity.
    + rewrite Hbad. reflexivity.
  - reflexivity.
Qed.

(** X1.  When the text of a normal payload can be extracted and, in case
    [continue_conversation] is truthy, [continue_delay] is a number the
    event loop accepts (3 when absent): the handler returns the extracted
    text and the value of [continue_conversation] exactly as the payload
    has it (not turned into a bool), and it performs the re-arm sequence,
    sleep then alert, when that value is truthy and no effect at all when
    it is falsy, in which case [continue_delay] is not looked at. *)
Theorem normal_response_rearms_exactly_when_continuing
    (w : world) (payload : list (string * pyval)) (user_input : ConversationInput.t)
    (s : string) :
  let flag := dict_get payload "continue_conversation" (PBool false) in
  let delay := dict_get payload "continue_delay" (PInt 3) in
  _extract_response_text (PDict payload) = inr s ->
  (truthy flag = true -> exists n, delay = PInt n /\ n < float_int_limit) ->
  _handle_normal_response w (PDict payload) user_input =
    (if truthy flag then rearm_events w delay else [],
     inr (make_result user_input (PStr s) flag)).
Proof.
  intros flag delay Hs Hdelay.
  rewrite (normal_handler_unfold w payload user_input s Hs). cbv zeta.
  fold flag delay. destruct (truthy flag) eqn:Hflag; [| reflexivity].
  destruct (Hdelay eq_refl) as (n & Hn & Hlim).
  rewrite (rearm_run w delay _ ltac:(rewrite Hn; apply asyncio_sleep_int; exact Hlim)).
  reflexivity.
Qed.

Lemma normal_response_rearms_exactly_when_continuing_witness :
  _handle_normal_response (answering 200 PNone)
    (PDict [("response", PStr "  Anything else?  ");
            ("continue_conversation", PStr "yes");
            ("continue_delay", PInt 2)]) hello =
    (rearm_events (answering 200 PNone) (PInt 2),
     inr (make_result hello (PStr "Anything else?") (PStr "yes")))
  /\
  _handle_normal_response (answering 200 PNone)
    (PDict [("response", PStr "Done.");
            ("continue_conversation", PInt 0);
            ("continue_delay", PStr "soon")]) hello =
    ([], inr (make_result hello (PStr "Done.") (PInt 0))).
Proof.
  split.
  - apply (normal_response_rearms_exactly_when_continuing (answering 200 PNone)
             [("response", PStr "  Anything else?  ");
              ("continue_conversation", PStr "yes");
              ("continue_delay", PInt 2)] hello "Anything else?").
    + reflexivity.
    + intros _. exists 2. split; reflexivity.
  - apply (normal_response_rearms_exactly_when_continuing (answering 200 PNone)
             [("response", PStr "Done.");
              ("continue_conversation", PInt 0);
              ("continue_delay", PStr "soon")] hello "Done.").
    + reflexivity.
    + intros H. discriminate H.
Defined.

(** X2.  When a normal payload asks to continue with a delay that
    [asyncio.sleep] refuses (not a number, or too large), the turn is
    answered with the apology for unexpected errors and the session is
    closed: the extracted text is dropped, and nothing happens after the
    post, neither sleep nor alert. *)
Theorem refused_delay_drops_the_answer
    (self : GlitchCubeConversationEntity) (w : world) (user_input : ConversationInput.t)
    (t : trace) (payload : list (string * pyval)) (s : string) (e : exn) :
  fetch_conversation_data self w user_input = (t, inr (PDict payload)) ->
  tag payload <> PStr immediate_tag -> tag payload <> PStr "error" ->
  _extract_response_text (PDict payload) = inr s ->
  truthy (dict_get payload "continue_conversation" (PBool false)) = true ->
  asyncio_sleep (dict_get payload "continue_delay" (PInt 3)) = ([], inl e) ->
  async_process self w user_input =
    (t, make_result user_input (PStr unexpected_apology) (PBool false)).
Proof.
  intros Hfetch Himm Herr Hs Hflag Hsleep.
  unfold async_process, process_body. rewrite Hfetch. cbn [bind Monad_M].
  rewrite route_response_unfold. cbv zeta. fold (tag payload).
  apply eq_str_false in Himm, Herr. rewrite Himm, Herr.
  rewrite (normal_handler_unfold w payload user_input s Hs). cbv zeta.
  rewrite Hflag, Hsleep. cbn [bind Monad_M].
  destruct (asyncio_sleep_cases (dict_get payload "continue_delay" (PInt 3)))
    as [Hok | (e' & Hbad & Hap)].
  - rewrite Hok in Hsleep. discriminate Hsleep.
  - rewrite Hbad in Hsleep. injection Hsleep as <-.
    unfold _create_error_response. rewrite Hap, app_nil_r. reflexivity.
Qed.

Lemma refused_delay_drops_the_answer_witness :
  let body := envelope [("response", PStr "Sure, what next?");
                        ("continue_conversation", PBool true);
                        ("continue_delay", PStr "3")] in
  async_process (__init__ entry) (answering 200 body) hello =
    ([EvPost "http://10.0.0.5:4567/api/v1/conversation"
        (request_payload (__init__ entry) (answering 200 body) hello)],
     make_result hello (PStr unexpected_apology) (PBool false)).
Proof.
  cbv zeta.
  apply (refused_delay_drops_the_answer (__init__ entry)
           (answering 200 (envelope [("response", PStr "Sure, what next?");
                                     ("continue_conversation", PBool true);
                                     ("continue_delay", PStr "3")]))
           hello _
           [("response", PStr "Sure, what next?");
            ("continue_conversation", PBool true);
            ("continue_delay", PStr "3")]
           "Sure, what next?" TypeError);
    try reflexivity; discriminate.
Defined.

End NormalHandler.

(* ===================================================================== *)
(** ** The shape of a whole turn *)
(* ===================================================================== *)

Module TurnShape.
Import Py Eff Agent Samples Spec Notions Laws Routing Handlers SideEffects
  Failures NormalHandler.

Lemma immediate_outcome (w : world) (cd : pyval) (user_input : ConversationInput.t) :
  route_outcome w user_input
    (_handle_immediate_speech_with_background_tools w cd user_input).
Proof.
  unfold _handle_immediate_speech_with_background_tools.
  destruct (get cd "speech_text" (PStr "On it!")) as [e | speech_text] eqn:Hget;
    [apply raised_quietly |].
  rewrite bind_lift_inr.
  destruct (slice_to 50 speech_text) as [e | shown]; [apply raised_quietly |].
  rewrite bind_lift_inr, guarded_call.
  change (bind ([?ev], inr tt) ?k) with (bind (tell ev) k). rewrite bind_tell.
  change (EvServiceCall "tts" "cloud_say" _ false _) with (speak_event w speech_text).
  destruct (get cd "continue_delay" (PInt 3)) as [e | delay];
    [apply raised_after_speech |].
  rewrite bind_lift_inr.
  destruct (asyncio_sleep_cases delay) as [Hok | (e & Hbad & _)].
  - rewrite (rearm_run w delay _ Hok). cbn [fst snd ret Monad_M].
    rewrite app_nil_r. apply session_kept_open_after_speech. reflexivity.
  - rewrite Hbad. apply raised_after_speech.
Qed.

Lemma normal_outcome (w : world) (cd : pyval) (user_input : ConversationInput.t) :
  route_outcome w user_input (_handle_normal_response w cd user_input).
Proof.
  destruct (_extract_response_text cd) as [e | s] eqn:Hs.
  { unfold _handle_normal_response. rewrite Hs. apply raised_quietly. }
  destruct cd as [| b | n | x | l | payload]; try discriminate Hs.
  rewrite (normal_handler_unfold w payload user_input s Hs). cbv zeta.
  destruct (truthy (dict_get payload "continue_conversation" (PBool false))) eqn:Hflag.
  - destruct (asyncio_sleep_cases (dict_get payload "continue_delay" (PInt 3)))
      as [Hok | (e & Hbad & _)].
    + rewrite (rearm_run w _ _ Hok). cbn [fst snd ret Monad_M].
      rewrite app_nil_r. apply session_kept_open. exact Hflag.
    + rewrite Hbad. apply raised_quietly.
  - apply session_closed. exact Hflag.
Qed.

Lemma route_response_outcome
    (w : world) (cd : pyval) (user_input : ConversationInput.t) :
  route_outcome w user_input (route_response w cd user_input).
Proof.
  destruct cd as [| b | n | x | l | payload]; try apply raised_quietly.
  rewrite route_response_unfold. cbv zeta.
  destruct (eq_str _ immediate_tag); [apply immediate_outcome |].
  destruct (eq_str _ "error"); [| apply normal_outcome].
  rewrite error_handler_run. apply session_closed. reflexivity.
Qed.

Lemma read_envelope_quiet (json : R pyval) : fst (read_envelope json) = [].
Proof.
  unfold read_envelope. destruct json as [e | result_data]; [reflexivity |].
  rewrite bind_lift_inr.
  destruct (get result_data "success" (PBool false)) as [e | success];
    [reflexivity |].
  rewrite bind_lift_inr. destruct (negb (truthy success)).
  - destruct (get result_data "error" (PStr "Unknown error")); reflexivity.
  - destruct (get result_data "data" (PDict [])); reflexivity.
Qed.

Lemma fetch_posts_once (self : GlitchCubeConversationEntity) (w : world)
    (user_input : ConversationInput.t) :
  fst (fetch_conversation_data self w user_input) =
    [EvPost (_get_current_api_url self w) (request_payload self w user_input)].
Proof.
  rewrite fetch_unfold. cbv zeta.
  destruct (session_post w _ _) as [e | status json]; [reflexivity |].
  destruct (status =? 200); [| reflexivity].
  cbn [fst]. rewrite read_envelope_quiet. reflexivity.
Qed.

Lemma turn_outcome_holds (self : GlitchCubeConversationEntity) (w : world)
    (user_input : ConversationInput.t) :
  turn_outcome self w user_input (async_process self w user_input).
Proof.
  unfold async_process, process_body.
  pose proof (fetch_posts_once self w user_input) as Hpost.
  destruct (fetch_conversation_data self w user_input) as [t [e | cd]];
    cbn [fst] in Hpost; subst t.
  - cbn [bind Monad_M]. apply turn_closed; [reflexivity | left; reflexivity].
  - cbn [bind Monad_M].
    pose proof (route_response_outcome w cd user_input) as H.
    destruct H as [e | message e | speech flag Hf | speech flag delay Hf
                   | message speech flag delay Hf]; cbn [app].
    + apply turn_closed; [reflexivity | left; reflexivity].
    + apply turn_closed; [reflexivity | right; eexists; reflexivity].
    + apply turn_closed; [exact Hf | left; reflexivity].
    + apply (turn_kept_open self w user_input [] speech flag delay Hf).
      left; reflexivity.
    + apply (turn_kept_open self w user_input [speak_event w message]
               speech flag delay Hf).
      right; eexists; reflexivity.
Qed.

(** X3.  Every turn posts to the backend exactly once, as its first
    event and to the URL resolved for this turn, whatever the backend
    answers (no retry); after the post there is nothing, or the speech
    call, or the re-arm sequence, or the speech call and then the re-arm
    sequence. *)
Theorem every_turn_posts_exactly_once
    (self : GlitchCubeConversationEntity) (w : world) (user_input : ConversationInput.t) :
  exists rest,
    fst (async_process self w user_input) =
      EvPost (_get_current_api_url self w) (request_payload self w user_input) :: rest /\
    after_post w rest /\
    List.length (filter is_post (fst (async_process self w user_input))) = 1%nat.
Proof.
  destruct (turn_outcome_holds self w user_input)
    as [rest speech flag _ [-> | [m ->]] | before speech flag delay _ [-> | [m ->]]];
    eexists; (split; [reflexivity |]); split;
    try reflexivity; constructor.
Qed.

(** X4.  A turn leaves the session open exactly when it performed the
    re-arm sequence: [continue_conversation] of the result is truthy if
    and only if the events of the turn end with the sleep followed by the
    alert. *)
Theorem session_open_iff_rearmed
    (self : GlitchCubeConversationEntity) (w : world) (user_input : ConversationInput.t) :
  truthy (ConversationResult.continue_conversation
            (snd (async_process self w user_input))) = true
  <-> ends_with_rearm w (fst (async_process self w user_input)).
Proof.
  destruct (turn_outcome_holds self w user_input)
    as [rest speech flag Hf Hrest | before speech flag delay Hf Hbefore];
    cbn [fst snd make_result ConversationResult.continue_conversation].
  - rewrite Hf. split; [discriminate |].
    intros (before & delay & H). exfalso. unfold rearm_events in H.
    destruct Hrest as [-> | [m ->]].
    + destruct before as [| x [| y before]]; cbn in H; discriminate H.
    + destruct before as [| x [| y [| z before]]]; cbn in H;
        try discriminate H.
  - rewrite Hf. split; [intros _ | reflexivity].
    eexists (_ :: before), delay. reflexivity.
Qed.

(** X5.  On every path, apologies included, the result of a turn carries
    the conversation id and the language of the input it answers. *)
Theorem result_echoes_conversation_and_language
    (self : GlitchCubeConversationEntity) (w : world) (user_input : ConversationInput.t) :
  let r := snd (async_process self w user_input) in
  ConversationResult.conversation_id r = ConversationInput.conversation_id user_input /\
  IntentResponse.language (ConversationResult.response r) =
    ConversationInput.language user_input.
Proof.
  destruct (turn_outcome_holds self w user_input); split; reflexivity.
Qed.

End TurnShape.

(* ===================================================================== *)
(** ** Edges of the extraction *)
(* ===================================================================== *)

Module ExtractionEdges.
Import Py Eff Agent Samples Spec Notions Laws Extraction.

Lemma ensure_speech_trimmed (v : pyval) (s : string) :
  ensure_speech v = inr s -> strip s = s /\ s <> "".
Proof.
  unfold ensure_speech, strip_method.
  destruct v as [| b | n | x | l | l]; cbn [bind Monad_R ret]; try discriminate.
  intros [= <-].
  destruct (strip x =? "")%string eqn:E.
  - split; [reflexivity | discriminate].
  - split; [apply strip_idempotent | apply String.eqb_neq; exact E].
Qed.

(** X6.  Whenever [_extract_response_text] returns, the text it returns
    is not empty and has no whitespace at either end: trimming it again
    changes nothing. *)
Theorem extracted_text_is_trimmed (conversation_data : pyval) (s : string) :
  _extract_response_text conversation_data = inr s ->
  strip s = s /\ s <> "".
Proof.
  rewrite extract_refines_priority. unfold extract_by_priority.
  destruct (get conversation_data "response" (PStr "")) as [e | raw];
    [discriminate |].
  cbn [bind Monad_R].
  destruct (if isinstance_dict raw
            then first_shape priority_order raw (PStr trouble_fallback)
            else ret (if truthy raw then PStr (str raw) else PStr not_understood))
    as [e | text]; [discriminate |].
  apply ensure_speech_trimmed.
Qed.

Lemma extracted_text_is_trimmed_witness :
  strip "padded on both sides" = "padded on both sides" /\
  "padded on both sides" <> "".
Proof.
  apply (extracted_text_is_trimmed
           (of_response (PStr "   padded on both sides  ")) "padded on both sides").
  reflexivity.
Defined.

(** X7.  A [response] that is not an object never makes the extraction
    fail: a truthy value (a string, a number, [True], a non-empty list)
    is turned into text with [str] and trimmed, a falsy one ([None],
    the empty string, 0, [False], an empty list, or no [response] key at
    all) gives the sentence for a response that was not understood; a
    text that trims to nothing gives the safety sentence. *)
Theorem plain_response_always_yields_text (payload : list (string * pyval)) :
  let raw := dict_get payload "response" (PStr "") in
  isinstance_dict raw = false ->
  _extract_response_text (PDict payload) =
    inr (if truthy raw then cleaned (str raw) else not_understood).
Proof.
  intros raw Hraw. unfold _extract_response_text, Const.RESPONSE_KEY.
  rewrite get_dict. fold raw. cbn [bind Monad_R]. rewrite Hraw.
  destruct (truthy raw); reflexivity.
Qed.

Lemma plain_response_always_yields_text_witness :
  _extract_response_text (PDict [("response", PInt 42)]) = inr "42" /\
  _extract_response_text (PDict [("response", PNone)]) = inr not_understood /\
  _extract_response_text (PDict [("response", PStr "   ")]) = inr speaking_safety /\
  _extract_response_text (PDict []) = inr not_understood.
Proof.
  split; [| split; [| split]].
  - apply (plain_response_always_yields_text [("response", PInt 42)]). reflexivity.
  - apply (plain_response_always_yields_text [("response", PNone)]). reflexivity.
  - apply (plain_response_always_yields_text [("response", PStr "   ")]). reflexivity.
  - apply (plain_response_always_yields_text []). reflexivity.
Defined.

(** X8.  In a response object, the value picked from speech.plain.speech
    or from response is used as it is, without [str]: when the first
    truthy one of the two is not a string, the extraction raises
    [AttributeError] (it has no [strip]), and the later shapes and the
    fallback sentence are not tried. *)
Theorem non_string_speech_is_not_converted
    (payload raw sp pl : list (string * pyval)) :
  let nested := dict_get pl "speech" PNone in
  let simple := dict_get raw "response" PNone in
  let picked := if truthy nested then nested else simple in
  dict_get payload "response" (PStr "") = PDict raw ->
  dict_get raw "speech" (PDict []) = PDict sp ->
  dict_get sp "plain" (PDict []) = PDict pl ->
  truthy picked = true ->
  (forall s, picked <> PStr s) ->
  _extract_response_text (PDict payload) = inl AttributeError.
Proof.
  intros nested simple picked Hraw Hsp Hpl Htruthy Hnot.
  unfold _extract_response_text, Const.RESPONSE_KEY.
  rewrite get_dict, Hraw. cbn [bind Monad_R isinstance_dict].
  rewrite get_dict, Hsp. cbn [bind Monad_R].
  rewrite get_dict, Hpl. cbn [bind Monad_R].
  rewrite get_dict. cbn [bind Monad_R]. fold nested.
  unfold picked in Htruthy, Hnot.
  destruct (truthy nested) eqn:Hn.
  - cbn [ret Monad_R]. destruct nested as [| b | n | x | l | l];
      try reflexivity. exfalso. apply (Hnot x). reflexivity.
  - rewrite get_dict. cbn [bind Monad_R]. fold simple. rewrite Htruthy.
    cbn [ret Monad_R]. destruct simple as [| b | n | x | l | l];
      try reflexivity. exfalso. apply (Hnot x). reflexivity.
Qed.

Lemma non_string_speech_is_not_converted_witness :
  _extract_response_text
    (of_response
       (PDict [("response", PInt 7);
               ("data", PDict [("custom_data",
                                PDict [("claude_response", PStr "usable text")])])]))
  = inl AttributeError.
Proof.
  apply (non_string_speech_is_not_converted
           [("response",
             PDict [("response", PInt 7);
                    ("data", PDict [("custom_data",
                                     PDict [("claude_response", PStr "usable text")])])])]
           [("response", PInt 7);
            ("data", PDict [("custom_data",
                             PDict [("claude_response", PStr "usable text")])])]
           [] []); try reflexivity.
  intros s. discriminate.
Defined.

(** X9.  In a response object, a [speech] entry that is not itself an
    object (a plain string, say) makes the extraction raise
    [AttributeError] at once: the [response] and [claude_response]
    shapes are not tried, whatever they hold. *)
Theorem malformed_speech_blocks_later_shapes
    (payload raw : list (string * pyval)) :
  dict_get payload "response" (PStr "") = PDict raw ->
  isinstance_dict (dict_get raw "speech" (PDict [])) = false ->
  _extract_response_text (PDict payload) = inl AttributeError.
Proof.
  intros Hraw Hsp. unfold _extract_response_text, Const.RESPONSE_KEY.
  rewrite get_dict, Hraw. cbn [bind Monad_R isinstance_dict].
  rewrite get_dict. cbn [bind Monad_R].
  destruct (dict_get raw "speech" (PDict [])); try discriminate Hsp; reflexivity.
Qed.

Lemma malformed_speech_blocks_later_shapes_witness :
  _extract_response_text
    (of_response (PDict [("speech", PStr "hi"); ("response", PStr "hello")]))
  = inl AttributeError.
Proof.
  apply (malformed_speech_blocks_later_shapes
           [("response", PDict [("speech", PStr "hi"); ("response", PStr "hello")])]
           [("speech", PStr "hi"); ("response", PStr "hello")]);
    reflexivity.
Defined.

End ExtractionEdges.

(* ===================================================================== *)
(** ** SessionKeyDerivation and the request *)
(* ===================================================================== *)

Module SessionKey.
Import Py Eff Agent Samples Spec Notions Laws.

Lemma session_id_sent_value (self : GlitchCubeConversationEntity) (w : world)
    (user_input : ConversationInput.t) :
  session_id_sent self w user_input = Some (PStr ("voice_" ++ session_key user_input)).
Proof.
  unfold session_id_sent, request_payload, session_key, opt_str.
  destruct (ConversationInput.conversation_id user_input); reflexivity.
Qed.

(** X10.  The session id sent to the backend is the conversation id of
    the turn behind the prefix [voice_] (the text [None] when the turn has
    no conversation id); it depends on nothing else, so two turns, of any
    entity and at any time, share a session id exactly when their
    conversation ids agree (a missing id and the id [None] agreeing). *)
Theorem session_id_is_prefixed_conversation_id
    (self self' : GlitchCubeConversationEntity) (w w' : world)
    (turn turn' : ConversationInput.t) :
  session_id_sent self w turn = Some (PStr ("voice_" ++ session_key turn)) /\
  (session_id_sent self w turn = session_id_sent self' w' turn'
   <-> session_key turn = session_key turn').
Proof.
  split; [apply session_id_sent_value |].
  rewrite !session_id_sent_value. split.
  - intros [= H]. exact H.
  - intros ->. reflexivity.
Qed.

End SessionKey.

(* ===================================================================== *)
(** ** Edges of the endpoint resolution *)
(* ===================================================================== *)

Module EndpointEdges.
Import Py Eff Agent Samples Spec Notions Laws Endpoint.

Lemma init_keeps_entry (c : ConfigEntry.t) : _config_entry (__init__ c) = c.
Proof. unfold __init__. destruct (negb (truthy _)); reflexivity. Qed.

(** X11.  The unset markers are tested on the state as published, and
    the state is trimmed only afterwards: a state that is whitespace
    around a marker, or whitespace alone, passes the test, and the URL is
    built from what trimming leaves, the marker itself or the empty
    host, instead of the configured host or the production address. *)
Theorem padded_marker_is_taken_as_host
    (c : ConfigEntry.t) (w : world) (state : string) :
  states_get w "input_text.glitchcube_host" = StateOf state ->
  is_unset state = false ->
  is_unset (strip state) = true ->
  _get_current_api_url (__init__ c) w =
    "http://" ++ strip state ++ ":" ++ str (configured_port c) ++ "/api/v1/conversation".
Proof.
  intros Hstate Hpass _. unfold _get_current_api_url.
  rewrite Hstate, state_test_is_unset, Hpass, init_keeps_entry.
  reflexivity.
Qed.

Lemma padded_marker_is_taken_as_host_witness :
  _get_current_api_url (__init__ entry)
    (with_host_state (answering 200 PNone) (StateOf " unknown ")) =
    "http://unknown:4567/api/v1/conversation" /\
  _get_current_api_url (__init__ entry)
    (with_host_state (answering 200 PNone) (StateOf "  ")) =
    "http://:4567/api/v1/conversation".
Proof.
  split.
  - apply (padded_marker_is_taken_as_host entry
             (with_host_state (answering 200 PNone) (StateOf " unknown "))
             " unknown "); reflexivity.
  - apply (padded_marker_is_taken_as_host entry
             (with_host_state (answering 200 PNone) (StateOf "  "))
             "  "); reflexivity.
Defined.

End EndpointEdges.

(* ===================================================================== *)
(** ** The setup flow: validate_input and async_step_user *)
(* ===================================================================== *)

Module SetupFlow.
Import Py Eff Const Agent Samples Spec ConfigFlow Notions Laws Endpoint EndpointEdges.

(** *** Assignment to a dict *)

Lemma lookup_dict_set_same (items : list (string * pyval)) (k : string) (v : pyval) :
  lookup k (dict_set items k v) = Some v.
Proof.
  induction items as [| [k' v'] rest IH]; cbn.
  - rewrite String.eqb_refl. reflexivity.
  - destruct (k' =? k)%string eqn:E; cbn; rewrite E; [reflexivity | exact IH].
Qed.

Lemma lookup_dict_set_other (items : list (string * pyval)) (k k' : string) (v : pyval) :
  k' <> k -> lookup k' (dict_set items k v) = lookup k' items.
Proof.
  intros Hk. induction items as [| [k0 v0] rest IH]; cbn.
  - destruct (String.eqb_spec k k'); [congruence | reflexivity].
  - destruct (String.eqb_spec k0 k) as [-> | Hne]; cbn.
    + destruct (String.eqb_spec k k'); [congruence | reflexivity].
    + destruct (k0 =? k')%string; [reflexivity | exact IH].
Qed.

Lemma dict_get_dict_set_other (items : list (string * pyval)) (k k' : string)
    (v d : pyval) :
  k' <> k -> dict_get (dict_set items k v) k' d = dict_get items k' d.
Proof. intros H. unfold dict_get. rewrite lookup_dict_set_other by exact H. reflexivity. Qed.

(** *** The two halves of [validate_input] *)

Lemma choose_host_is_probe_host (s : setup) (data : list (string * pyval)) :
  fst (choose_host s data) = probe_host s data.
Proof.
  unfold choose_host, probe_host, dict_get.
  destruct (lookup "host" data) as [explicit |].
  - destruct (truthy explicit); [reflexivity |].
    destruct (states_get (hass s) "input_text.glitchcube_host") as [e | | state];
      try reflexivity.
    destruct (state =? "")%string; reflexivity.
  - cbn [truthy].
    destruct (states_get (hass s) "input_text.glitchcube_host") as [e | | state];
      try reflexivity.
    destruct (state =? "")%string; reflexivity.
Qed.

Lemma choose_host_data (s : setup) (data : list (string * pyval)) :
  snd (choose_host s data) =
    if truthy (dict_get data "host" PNone) then data
    else dict_set data "host" (PStr "").
Proof.
  unfold choose_host.
  destruct (truthy (dict_get data "host" PNone)); [reflexivity |].
  destruct (states_get (hass s) "input_text.glitchcube_host") as [e | | state];
    try reflexivity.
  destruct (negb (state =? "")%string); reflexivity.
Qed.

Lemma choose_host_keeps_port (s : setup) (data : list (string * pyval)) :
  dict_get (snd (choose_host s data)) "port" (PInt DEFAULT_PORT) = probe_port data.
Proof.
  rewrite choose_host_data. unfold probe_port.
  destruct (truthy (dict_get data "host" PNone)); [reflexivity |].
  apply dict_get_dict_set_other. discriminate.
Qed.

Lemma validate_input_unfold (s : setup) (data : list (string * pyval)) :
  validate_input s data =
    (snd (choose_host s data),
     match probe_body s (probe_host s data) (probe_port data) with
     | (t, inl e) => (t, inl (connect_error s e))
     | (t, inr i) => (t, inr i)
     end).
Proof.
  unfold validate_input.
  rewrite <- choose_host_is_probe_host, <- (choose_host_keeps_port s data).
  destruct (choose_host s data) as [host data']. reflexivity.
Qed.

Lemma probe_body_unfold (s : setup) (host port : pyval) :
  probe_body s host port =
    match session_get s (health_url host port) with
    | PostRaises e => ([EvGet (health_url host port)], inl (Raised e))
    | PostResponse status json =>
        if status =? 200 then
          match json with
          | inl e => ([EvGet (health_url host port)], inl (Raised e))
          | inr (PDict health) =>
              ([EvGet (health_url host port)],
               inr {| title := "Glitch Cube (" ++ str host ++ ":" ++ str port ++ ")";
                      version := dict_get health "version" (PStr "unknown") |})
          | inr _ => ([EvGet (health_url host port)], inl (Raised AttributeError))
          end
        else ([EvGet (health_url host port)],
              inl (CannotConnect "Health check failed"))
    end.
Proof.
  unfold probe_body.
  destruct (session_get s (health_url host port)) as [e | status json];
    [reflexivity |].
  destruct (status =? 200); [| reflexivity].
  destruct json as [e | body]; [reflexivity |].
  destruct body; reflexivity.
Qed.

Lemma probe_outcome_cases (s : setup) (o : http_outcome) :
  probe_ok o \/ exists msg, probe_failure s o msg.
Proof.
  destruct o as [e | status json].
  - right. destruct (is_TimeoutError e) eqn:Ht; [eexists; apply probe_timeout; exact Ht |].
    destruct (is_ClientError e) eqn:Hc;
      eexists; [apply probe_unreachable | apply probe_unexpected]; assumption.
  - destruct (Z.eq_dec status 200) as [-> | Hs];
      [| right; eexists; apply probe_bad_status; exact Hs].
    destruct json as [e | body].
    + right. destruct (is_TimeoutError e) eqn:Ht;
        [eexists; apply probe_body_timeout; exact Ht |].
      destruct (is_ClientError e) eqn:Hc;
        eexists; [apply probe_body_unreachable | apply probe_body_unreadable];
        assumption.
    + destruct (isinstance_dict body) eqn:Hb.
      * left. destruct body; try discriminate Hb. eexists; reflexivity.
      * right. eexists. apply probe_body_not_an_object. exact Hb.
Qed.

Lemma probe_ok_not_failure (s : setup) (o : http_outcome) (msg : string) :
  probe_ok o -> probe_failure s o msg -> False.
Proof.
  intros [health ->] H. inversion H; subst; try congruence. discriminate.
Qed.

Lemma validate_input_failure (s : setup) (data : list (string * pyval)) (msg : string) :
  probe_failure s (session_get s (probe_url s data)) msg ->
  snd (validate_input s data) = ([EvGet (probe_url s data)], inl (CannotConnect msg)).
Proof.
  intros H. rewrite validate_input_unfold, probe_body_unfold. cbn [snd].
  fold (probe_url s data).
  remember (session_get s (probe_url s data)) as o eqn:Ho. clear Ho.
  destruct H as [e Ht | e Ht Hc | e Ht Hc | status json Hs | e Ht | e Ht Hc
                 | e Ht Hc | body Hb]; cbn [connect_error flow_exn_text];
    try (rewrite Ht); try (rewrite Hc); try reflexivity.
  - apply Z.eqb_neq in Hs. rewrite Hs. reflexivity.
  - cbn. rewrite Ht. reflexivity.
  - cbn. rewrite Ht, Hc. reflexivity.
  - cbn. rewrite Ht, Hc. reflexivity.
  - destruct body; try discriminate Hb; reflexivity.
Qed.

Lemma validate_input_success (s : setup) (data : list (string * pyval))
    (health : list (string * pyval)) :
  session_get s (probe_url s data) = PostResponse 200 (inr (PDict health)) ->
  snd (validate_input s data) =
    ([EvGet (probe_url s data)],
     inr {| title := "Glitch Cube (" ++ str (probe_host s data) ++ ":" ++
                     str (probe_port data) ++ ")";
            version := dict_get health "version" (PStr "unknown") |}).
Proof.
  intros H. rewrite validate_input_unfold, probe_body_unfold. cbn [snd].
  fold (probe_url s data). rewrite H. reflexivity.
Qed.

(** *** validate_input *)

(** X12.  [validate_input] raises nothing but [CannotConnect], and each
    failure of the health probe has its message: a timeout and a transport
    error have their own sentences, anything else is reported as
    unexpected with the text of the exception; and a status other than
    200 is reported as [Unexpected error: Health check failed], because
    the [CannotConnect] raised for it inside the [try] block is caught by
    the block's own last clause and wrapped. *)
Theorem validate_input_raises_only_cannot_connect
    (s : setup) (data : list (string * pyval)) :
  (forall t e,
     snd (validate_input s data) = (t, inl e) -> exists msg, e = CannotConnect msg)
  /\
  (forall msg,
     probe_failure s (session_get s (probe_url s data)) msg ->
     snd (validate_input s data) =
       ([EvGet (probe_url s data)], inl (CannotConnect msg))).
Proof.
  split; [| intros msg; apply validate_input_failure].
  intros t e H.
  destruct (probe_outcome_cases s (session_get s (probe_url s data)))
    as [[health Hok] | [msg Hbad]].
  - rewrite (validate_input_success s data health Hok) in H. discriminate H.
  - rewrite (validate_input_failure s data msg Hbad) in H.
    injection H as _ <-. exists msg. reflexivity.
Qed.

Lemma validate_input_raises_only_cannot_connect_witness :
  snd (validate_input (setting_up StateMissing 503 PNone)
         [("host", PStr "10.0.0.5"); ("port", PInt 4567)]) =
    ([EvGet "http://10.0.0.5:4567/health"],
     inl (CannotConnect "Unexpected error: Health check failed")).
Proof.
  destruct (validate_input_raises_only_cannot_connect
              (setting_up StateMissing 503 PNone)
              [("host", PStr "10.0.0.5"); ("port", PInt 4567)]) as [_ H].
  apply (H "Unexpected error: Health check failed").
  apply probe_bad_status. discriminate.
Defined.

(** X13.  [validate_input] changes the dict it is given in one place at
    most: when the dict holds a truthy [host] it is left as it is, and
    otherwise [host] is set to the empty string, whether the probe then
    succeeds or fails and whichever host was probed; every other key
    keeps its value.  The host found in the state store, or the
    production address, is never written into the dict. *)
Theorem validate_input_stores_explicit_host_or_empty
    (s : setup) (data : list (string * pyval)) :
  let after := fst (validate_input s data) in
  (forall k, k <> "host" -> lookup k after = lookup k data) /\
  (if truthy (dict_get data "host" PNone)
   then after = data
   else lookup "host" after = Some (PStr "")).
Proof.
  intros after. subst after. rewrite validate_input_unfold. cbn [fst].
  rewrite choose_host_data.
  destruct (truthy (dict_get data "host" PNone)).
  - split; [intros; reflexivity | reflexivity].
  - split; [intros k Hk; apply lookup_dict_set_other; exact Hk |].
    apply lookup_dict_set_same.
Qed.

(** X14.  [validate_input] probes exactly once, whatever happens, and at
    the host its comment promises: the explicit host of the dict when it
    is truthy, else the state of the store entity when it exists and is
    not empty (as published: not trimmed, and [unknown] or [unavailable]
    are taken as hosts), else the production address; the port is the one
    of the dict, 4567 by default. *)
Theorem validate_input_probes_once_by_priority
    (s : setup) (data : list (string * pyval)) :
  fst (snd (validate_input s data)) = [EvGet (probe_url s data)].
Proof.
  destruct (probe_outcome_cases s (session_get s (probe_url s data)))
    as [[health Hok] | [msg Hbad]].
  - rewrite (validate_input_success s data health Hok). reflexivity.
  - rewrite (validate_input_failure s data msg Hbad). reflexivity.
Qed.

(** The three levels of the setup's priority on concrete dicts. *)
Example probe_targets :
  probe_url (setting_up (StateOf "192.168.1.20") 200 healthy)
    [("host", PStr "10.0.0.5"); ("port", PInt 4567)] = "http://10.0.0.5:4567/health" /\
  probe_url (setting_up (StateOf " 192.168.1.20 ") 200 healthy)
    [("host", PStr ""); ("port", PInt 4567)] = "http://" ++ " 192.168.1.20 " ++ ":4567/health" /\
  probe_url (setting_up (StateOf "unavailable") 200 healthy)
    [("host", PStr "")] = "http://unavailable:4567/health" /\
  probe_url (setting_up StateMissing 200 healthy) [("port", PInt 8080)]
    = "http://192.168.0.99:8080/health".
Proof. repeat split. Qed.

(** *** async_step_user *)

Lemma step_free (s : setup) (data : list (string * pyval)) :
  unique_id_check s DOMAIN = None -> step_body s data = validate_input s data.
Proof. unfold step_body. intros ->. reflexivity. Qed.

Lemma step_created (s : setup) (data : list (string * pyval))
    (health : list (string * pyval)) :
  unique_id_check s DOMAIN = None ->
  session_get s (probe_url s data) = PostResponse 200 (inr (PDict health)) ->
  async_step_user s (Some data) =
    ([EvGet (probe_url s data)],
     CreateEntry ("Glitch Cube (" ++ str (probe_host s data) ++ ":" ++
                  str (probe_port data) ++ ")")
                 (fst (validate_input s data))).
Proof.
  intros Hfree Hok. unfold async_step_user. rewrite (step_free s data Hfree).
  pose proof (validate_input_success s data health Hok) as H.
  destruct (validate_input s data) as [after run]. cbn [snd fst] in *.
  rewrite H. reflexivity.
Qed.

Lemma step_cannot_connect (s : setup) (data : list (string * pyval)) (msg : string) :
  unique_id_check s DOMAIN = None ->
  probe_failure s (session_get s (probe_url s data)) msg ->
  async_step_user s (Some data) =
    ([EvGet (probe_url s data)], ShowForm [("base", "cannot_connect")]).
Proof.
  intros Hfree Hbad. unfold async_step_user. rewrite (step_free s data Hfree).
  pose proof (validate_input_failure s data msg Hbad) as H.
  destruct (validate_input s data) as [after run]. cbn [snd] in H.
  rewrite H. reflexivity.
Qed.

Lemma step_taken (s : setup) (data : list (string * pyval)) (reason : string) :
  unique_id_check s DOMAIN = Some reason ->
  async_step_user s (Some data) = ([], ShowForm [("base", "unknown")]).
Proof. intros H. unfold async_step_user, step_body. rewrite H. reflexivity. Qed.

(** X15.  Submitting the form creates an entry exactly when the unique
    id is free and the health probe answers with status 200 and a JSON
    object; the entry then has the title [Glitch Cube (host:port)] of the
    probed host and port, and as its data the submitted dict as
    [validate_input] left it. *)
Theorem entry_created_iff_probe_succeeds
    (s : setup) (data : list (string * pyval)) :
  ((exists t entry_title d,
      async_step_user s (Some data) = (t, CreateEntry entry_title d))
   <-> (unique_id_check s DOMAIN = None /\
        probe_ok (session_get s (probe_url s data))))
  /\
  (forall t entry_title d,
     async_step_user s (Some data) = (t, CreateEntry entry_title d) ->
     t = [EvGet (probe_url s data)] /\
     entry_title = "Glitch Cube (" ++ str (probe_host s data) ++ ":" ++
                   str (probe_port data) ++ ")" /\
     d = fst (validate_input s data)).
Proof.
  assert (Hcases :
            forall t entry_title d,
              async_step_user s (Some data) = (t, CreateEntry entry_title d) ->
              unique_id_check s DOMAIN = None /\
              probe_ok (session_get s (probe_url s data))).
  { intros t entry_title d H.
    destruct (unique_id_check s DOMAIN) as [reason |] eqn:Hid.
    { rewrite (step_taken s data reason Hid) in H. discriminate H. }
    split; [reflexivity |].
    destruct (probe_outcome_cases s (session_get s (probe_url s data)))
      as [Hok | [msg Hbad]]; [exact Hok |].
    rewrite (step_cannot_connect s data msg Hid Hbad) in H. discriminate H. }
  split; [split |].
  - intros (t & entry_title & d & H). exact (Hcases t entry_title d H).
  - intros [Hfree [health Hok]]. do 3 eexists.
    apply (step_created s data health Hfree Hok).
  - intros t entry_title d H.
    destruct (Hcases t entry_title d H) as [Hfree [health Hok]].
    rewrite (step_created s data health Hfree Hok) in H.
    injection H as <- <- <-. repeat split.
Qed.

(** X16.  The form comes back with the error [unknown] exactly when the
    unique id cannot be taken (the [AbortFlow] of the platform is caught
    by the step's last clause instead of ending the flow), and then no
    probe is sent; a connection problem of any kind, an unexpected one
    included, always comes back as [cannot_connect]. *)
Theorem unknown_error_only_for_taken_unique_id
    (s : setup) (data : list (string * pyval)) :
  (snd (async_step_user s (Some data)) = ShowForm [("base", "unknown")]
   <-> unique_id_check s DOMAIN <> None)
  /\
  (unique_id_check s DOMAIN <> None -> fst (async_step_user s (Some data)) = [])
  /\
  (unique_id_check s DOMAIN = None ->
   ~ probe_ok (session_get s (probe_url s data)) ->
   async_step_user s (Some data) =
     ([EvGet (probe_url s data)], ShowForm [("base", "cannot_connect")])).
Proof.
  destruct (unique_id_check s DOMAIN) as [reason |] eqn:Hid.
  - rewrite (step_taken s data reason Hid).
    repeat split; try congruence; try discriminate.
  - split; [| split; [congruence |]].
    + split; [| congruence]. intros H. exfalso.
      destruct (probe_outcome_cases s (session_get s (probe_url s data)))
        as [[health Hok] | [msg Hbad]].
      * rewrite (step_created s data health Hid Hok) in H. discriminate H.
      * rewrite (step_cannot_connect s data msg Hid Hbad) in H. discriminate H.
    + intros _ Hnot.
      destruct (probe_outcome_cases s (session_get s (probe_url s data)))
        as [Hok | [msg Hbad]]; [contradiction |].
      apply (step_cannot_connect s data msg Hid Hbad).
Qed.

End SetupFlow.

(* ===================================================================== *)
(** ** From the setup flow to the running entity *)
(* ===================================================================== *)

Module SetupToRuntime.
Import Py Eff Const Agent Samples Spec ConfigFlow Notions Laws Endpoint
  EndpointEdges SetupFlow.

Lemma append_assoc3 (a b c : string) : (a ++ b) ++ c = a ++ (b ++ c).
Proof. induction a as [| x a IH]; cbn; [reflexivity | rewrite IH; reflexivity]. Qed.

Lemma created_data (s : setup) (data : list (string * pyval))
    (t : list flow_event) (entry_title : string) (d : list (string * pyval)) :
  async_step_user s (Some data) = (t, CreateEntry entry_title d) ->
  t = [EvGet (probe_url s data)] /\ d = snd (choose_host s data).
Proof.
  intros H.
  destruct (unique_id_check s DOMAIN) as [reason |] eqn:Hid.
  { rewrite (step_taken s data reason Hid) in H. discriminate H. }
  destruct (probe_outcome_cases s (session_get s (probe_url s data)))
    as [[health Hok] | [msg Hbad]].
  - rewrite (step_created s data health Hid Hok) in H.
    injection H as <- _ <-. rewrite validate_input_unfold. split; reflexivity.
  - rewrite (step_cannot_connect s data msg Hid Hbad) in H. discriminate H.
Qed.

(** The URL of a turn when the store publishes no usable host. *)
Lemma static_url (c : ConfigEntry.t) (w : world) :
  dynamic_host w = None ->
  _get_current_api_url (__init__ c) w =
    endpoint (if truthy (configured_host c) then str (configured_host c)
              else production_host)
             (str (dict_get (ConfigEntry.data c) "port" (PInt DEFAULT_PORT))).
Proof.
  intros Hdyn. unfold _get_current_api_url. rewrite init_keeps_entry.
  set (port := str (dict_get (ConfigEntry.data c) "port" (PInt DEFAULT_PORT))).
  assert (Hstatic :
            match _api_url (__init__ c) with
            | Some url => if negb (url =? "")%string then url
                          else "http://192.168.0.99:" ++ port ++ conversation_path
            | None => "http://192.168.0.99:" ++ port ++ conversation_path
            end =
            endpoint (if truthy (configured_host c) then str (configured_host c)
                      else production_host) port).
  { unfold __init__, configured_host, endpoint, production_host. fold port.
    destruct (truthy (dict_get (ConfigEntry.data c) "host" (PStr ""))); reflexivity. }
  unfold dynamic_host in Hdyn.
  destruct (states_get w "input_text.glitchcube_host") as [e | | state];
    try exact Hstatic.
  rewrite state_test_is_unset.
  destruct (is_unset state); [exact Hstatic | discriminate Hdyn].
Qed.

Lemma truthy_get_any_default (items : list (string * pyval)) (k : string) (d : pyval) :
  truthy (dict_get items k PNone) = true ->
  dict_get items k d = dict_get items k PNone.
Proof.
  unfold dict_get. destruct (lookup k items); [reflexivity | discriminate].
Qed.

(** X17.  An entry created from a form without a host runs in dynamic
    mode, whichever host answered the probe: its stored host is empty,
    the entity has no fixed URL, and a turn for which the store publishes
    no usable host goes to the production address at the port of the
    form, not to the host that was probed. *)
Theorem entry_without_host_runs_in_dynamic_mode
    (s : setup) (data : list (string * pyval)) (t : list flow_event)
    (entry_title id : string) (d : list (string * pyval)) :
  async_step_user s (Some data) = (t, CreateEntry entry_title d) ->
  truthy (dict_get data "host" PNone) = false ->
  let self := __init__ {| ConfigEntry.entry_id := id; ConfigEntry.data := d |} in
  lookup "host" d = Some (PStr "") /\
  _api_url self = None /\
  (forall w, dynamic_host w = None ->
             _get_current_api_url self w =
               endpoint production_host (str (probe_port data))).
Proof.
  intros Hcreated Hhost self.
  destruct (created_data s data t entry_title d Hcreated) as [_ Hd].
  rewrite choose_host_data, Hhost in Hd.
  assert (Hstored : lookup "host" d = Some (PStr "")).
  { rewrite Hd. apply lookup_dict_set_same. }
  assert (Hget : dict_get d "host" (PStr "") = PStr "").
  { unfold dict_get. rewrite Hstored. reflexivity. }
  split; [exact Hstored |]. split.
  - unfold self, __init__. cbn [ConfigEntry.data]. rewrite Hget. reflexivity.
  - intros w Hdyn. unfold self. rewrite (static_url _ w Hdyn).
    unfold configured_host. cbn [ConfigEntry.data]. rewrite Hget. cbn [truthy String.eqb negb].
    f_equal. f_equal. rewrite Hd. unfold probe_port.
    apply dict_get_dict_set_other. discriminate.
Qed.

Lemma entry_without_host_runs_in_dynamic_mode_witness :
  let data := [("host", PStr ""); ("port", PInt 8080)] in
  let s := setting_up (StateOf "192.168.1.20") 200 healthy in
  let self := __init__ {| ConfigEntry.entry_id := "abc123";
                          ConfigEntry.data := fst (validate_input s data) |} in
  lookup "host" (fst (validate_input s data)) = Some (PStr "") /\
  _api_url self = None /\
  (forall w, dynamic_host w = None ->
             _get_current_api_url self w = "http://192.168.0.99:8080/api/v1/conversation").
Proof.
  cbv zeta.
  apply (entry_without_host_runs_in_dynamic_mode
           (setting_up (StateOf "192.168.1.20") 200 healthy)
           [("host", PStr ""); ("port", PInt 8080)]
           [EvGet "http://192.168.1.20:8080/health"]
           "Glitch Cube (192.168.1.20:8080)" "abc123");
    reflexivity.
Defined.

(** X18.  An entry created from a form with a host is probed and later
    addressed at the same place: the health probe of the setup and the
    conversation URL of a turn for which the store publishes no usable
    host have the same scheme, host and port, those of the form. *)
Theorem explicit_host_is_probed_and_used
    (s : setup) (data : list (string * pyval)) (t : list flow_event)
    (entry_title id : string) (d : list (string * pyval)) (w : world) :
  async_step_user s (Some data) = (t, CreateEntry entry_title d) ->
  truthy (dict_get data "host" PNone) = true ->
  dynamic_host w = None ->
  let place := authority (dict_get data "host" PNone) (probe_port data) in
  t = [EvGet (place ++ "/health")] /\
  _get_current_api_url
    (__init__ {| ConfigEntry.entry_id := id; ConfigEntry.data := d |}) w
  = place ++ "/api/v1/conversation".
Proof.
  intros Hcreated Hhost Hdyn place.
  destruct (created_data s data t entry_title d Hcreated) as [-> Hd].
  rewrite choose_host_data, Hhost in Hd. subst d.
  assert (Hprobe : probe_host s data = dict_get data "host" PNone).
  { rewrite <- choose_host_is_probe_host. unfold choose_host. rewrite Hhost. reflexivity. }
  unfold place, authority. split.
  - unfold probe_url, health_url. rewrite Hprobe.
    rewrite !append_assoc3. reflexivity.
  - rewrite (static_url _ w Hdyn). unfold configured_host, endpoint, probe_port.
    cbn [ConfigEntry.data].
    rewrite (truthy_get_any_default data "host" (PStr "") Hhost), Hhost.
    rewrite !append_assoc3. reflexivity.
Qed.

Lemma explicit_host_is_probed_and_used_witness :
  let data := [("host", PStr "10.0.0.5"); ("port", PInt 4567)] in
  [EvGet "http://10.0.0.5:4567/health"] = [EvGet ("http://10.0.0.5:4567" ++ "/health")] /\
  _get_current_api_url
    (__init__ {| ConfigEntry.entry_id := "abc123"; ConfigEntry.data := data |})
    (answering 200 PNone)
  = "http://10.0.0.5:4567" ++ "/api/v1/conversation".
Proof.
  cbv zeta.
  apply (explicit_host_is_probed_and_used
           (setting_up StateMissing 200 healthy)
           [("host", PStr "10.0.0.5"); ("port", PInt 4567)]
           [EvGet "http://10.0.0.5:4567/health"]
           "Glitch Cube (10.0.0.5:4567)" "abc123"
           [("host", PStr "10.0.0.5"); ("port", PInt 4567)]
           (answering 200 PNone));
    reflexivity.
Defined.

(** X19.  Setup and runtime read the same store entity by different
    rules: with no host in the form and the entity in state [unknown] or
    [unavailable], the setup probes that word as a host, while a turn of
    the entity made from the resulting data, in the same state of the
    store, discards it and goes to the production address. *)
Theorem setup_probes_a_marker_the_runtime_discards
    (s : setup) (data : list (string * pyval)) (state id : string) :
  truthy (dict_get data "host" PNone) = false ->
  states_get (hass s) "input_text.glitchcube_host" = StateOf state ->
  state <> "" ->
  is_unset state = true ->
  fst (snd (validate_input s data)) =
    [EvGet (health_url (PStr state) (probe_port data))] /\
  _get_current_api_url
    (__init__ {| ConfigEntry.entry_id := id;
                 ConfigEntry.data := fst (validate_input s data) |})
    (hass s)
  = endpoint production_host (str (probe_port data)).
Proof.
  intros Hhost Hstate Hne Hunset.
  assert (Hprobe : probe_host s data = PStr state).
  { rewrite <- choose_host_is_probe_host. unfold choose_host.
    rewrite Hhost, Hstate. apply String.eqb_neq in Hne. rewrite Hne. reflexivity. }
  split.
  - destruct (probe_outcome_cases s (session_get s (probe_url s data)))
      as [[health Hok] | [msg Hbad]].
    + rewrite (validate_input_success s data health Hok). cbn [fst].
      unfold probe_url. rewrite Hprobe. reflexivity.
    + rewrite (validate_input_failure s data msg Hbad). cbn [fst].
      unfold probe_url. rewrite Hprobe. reflexivity.
  - assert (Hdyn : dynamic_host (hass s) = None).
    { unfold dynamic_host. rewrite Hstate, Hunset. reflexivity. }
    rewrite (static_url _ (hass s) Hdyn).
    rewrite validate_input_unfold. cbn [fst ConfigEntry.data].
    rewrite choose_host_data, Hhost. unfold configured_host. cbn [ConfigEntry.data].
    unfold dict_get at 1 2. rewrite lookup_dict_set_same. cbn [truthy String.eqb negb].
    f_equal. f_equal. unfold probe_port.
    apply dict_get_dict_set_other. discriminate.
Qed.

Lemma setup_probes_a_marker_the_runtime_discards_witness :
  let s := setting_up (StateOf "unavailable") 200 healthy in
  let data := [("host", PStr ""); ("port", PInt 4567)] in
  fst (snd (validate_input s data)) = [EvGet "http://unavailable:4567/health"] /\
  _get_current_api_url
    (__init__ {| ConfigEntry.entry_id := "abc123";
                 ConfigEntry.data := fst (validate_input s data) |})
    (hass s)
  = "http://192.168.0.99:4567/api/v1/conversation".
Proof.
  cbv zeta.
  apply (setup_probes_a_marker_the_runtime_discards
           (setting_up (StateOf "unavailable") 200 healthy)
           [("host", PStr ""); ("port", PInt 4567)] "unavailable" "abc123");
    try reflexivity.
  discriminate.
Defined.

End SetupToRuntime.

(* ===================================================================== *)
(** ** Edges of the envelope *)
(* ===================================================================== *)

Module EnvelopeEdges.
Import Py Eff Agent Samples Spec Notions Laws Failures.

(** X20.  A 200 response whose envelope reports success but holds no
    [data] is handled as an empty normal payload: the turn answers with
    the sentence for a response that was not understood, closes the
    session, and does nothing besides the post. *)
Theorem success_without_data_is_not_understood
    (self : GlitchCubeConversationEntity) (w : world) (user_input : ConversationInput.t)
    (body : list (string * pyval)) :
  session_post w (_get_current_api_url self w) (request_payload self w user_input) =
    PostResponse 200 (inr (PDict body)) ->
  truthy (dict_get body "success" (PBool false)) = true ->
  lookup "data" body = None ->
  async_process self w user_input =
    ([EvPost (_get_current_api_url self w) (request_payload self w user_input)],
     make_result user_input (PStr not_understood) (PBool false)).
Proof.
  intros Hpost Hsuccess Hdata.
  unfold async_process, process_body. rewrite fetch_unfold. cbv zeta.
  rewrite Hpost. cbn [Z.eqb Pos.eqb]. unfold read_envelope.
  rewrite bind_lift_inr, get_dict, bind_lift_inr, Hsuccess. cbn [negb].
  rewrite get_dict, (dict_get_absent _ _ _ Hdata). reflexivity.
Qed.

Lemma success_without_data_is_not_understood_witness :
  async_process (__init__ entry) (answering 200 (PDict [("success", PBool true)])) hello =
    ([EvPost "http://10.0.0.5:4567/api/v1/conversation"
        (request_payload (__init__ entry)
           (answering 200 (PDict [("success", PBool true)])) hello)],
     make_result hello (PStr not_understood) (PBool false)).
Proof.
  apply (success_without_data_is_not_understood (__init__ entry)
           (answering 200 (PDict [("success", PBool true)])) hello
           [("success", PBool true)]); reflexivity.
Defined.

End EnvelopeEdges.

(* ===================================================================== *)
(** ** The immediate-speech handler on every payload *)
(* ===================================================================== *)

Module ImmediateHandler.
Import Py Eff Agent Samples Spec Notions Laws Routing Handlers SideEffects
  NormalHandler.









End ImmediateHandler.
